(** * Movie_Recommendation: the recommendation cascade of [app.py]

    A shallow embedding of the four functions of [app.py]
    ([fetch_movie_data_from_api], [fetch_movie_collection], [fetch_poster],
    [recommend]) and the properties of the cascade.

    Modelling choices.
    - An upstream response is a JSON value ([json]); Python's dynamic
      operations on it ([d[k]], [d.get(k, default)], slicing, truthiness,
      [int], [str.lower], iteration, set membership) are total functions
      into [res], whose [Raise] carries the class of the Python exception.
    - A Python [str] is a [string]; digit and whitespace classification
      are the ASCII ones.  The Unicode case mappings [str.lower] and
      [str.title] are parameters of the model ([str_lower], [str_title]):
      what is proved holds for Python's own.  The scenarios, whose
      strings are ASCII, run with the ASCII instances [Str.lower] and
      [Str.title].
    - A JSON number is the rational value of the parsed [int] or [float].
    - The remote service is an oracle [http] threaded through a world
      state: the same request may be answered differently at different
      times, and [None] stands for any exception raised by
      [requests.get(url).json()].
    - [st.error] only reports on the page: the error boxes that the
      fetch functions write when a request fails are not modelled, and
      are no part of what the page model records. *)

From Stdlib Require Import List String Ascii Bool Arith ZArith QArith Lia.
From Stdlib Require Import Sorting.Sorted Sorting.Permutation.
From Stdlib Require Import Structures.OrderedTypeEx DecimalString.
Import ListNotations.

Local Open Scope string_scope.
Local Open Scope list_scope.

(* ================================================================= *)
(** ** JSON values and Python exceptions *)

#[local] Set Warnings "-register-all".
Inductive json : Type :=
| JNull
| JBool (b : bool)
| JNum (q : Q)
| JStr (s : string)
| JArr (l : list json)
| JObj (kv : list (string * json)).
#[local] Set Warnings "register-all".

(** The exception classes the code can raise.  [RequestError] is any
    failure of [requests.get(url).json()] (connection error, timeout,
    undecodable body).  [Unmodelled] is not a Python exception: it marks
    the one behaviour outside the model ([sorted] over array-valued keys)
    and is never caught. *)
Inductive exn : Type :=
| KeyError
| IndexError
| TypeError
| AttributeError
| ValueError
| RequestError
| Unmodelled.

Inductive res (A : Type) : Type :=
| Ok (a : A)
| Raise (e : exn).
Arguments Ok {A} a.
Arguments Raise {A} e.

Definition res_bind {A B} (r : res A) (k : A -> res B) : res B :=
  match r with
  | Ok a => k a
  | Raise e => Raise e
  end.

Declare Scope res_scope.
Delimit Scope res_scope with res.
Notation "x <- r ;; k" := (res_bind r (fun x => k))
  (at level 61, r at next level, right associativity) : res_scope.

Fixpoint res_map {A B} (f : A -> res B) (l : list A) : res (list B) :=
  match l with
  | [] => Ok []
  | x :: l' =>
      (y <- f x ;; ys <- res_map f l' ;; Ok (y :: ys))%res
  end.

(* ================================================================= *)
(** ** Strings *)

Module Str.

Definition code (c : ascii) : N := N_of_ascii c.

Definition is_digit (c : ascii) : bool :=
  ((48 <=? code c) && (code c <=? 57))%N.

Definition is_upper (c : ascii) : bool :=
  ((65 <=? code c) && (code c <=? 90))%N.

Definition is_lower (c : ascii) : bool :=
  ((97 <=? code c) && (code c <=? 122))%N.

(** Whitespace as [int] strips it from an ASCII string: tab, LF, VT, FF,
    CR and space. *)
Definition is_space (c : ascii) : bool :=
  (((9 <=? code c) && (code c <=? 13)) || (code c =? 32))%N.

Definition lower_char (c : ascii) : ascii :=
  if is_upper c then ascii_of_N (code c + 32) else c.

Definition upper_char (c : ascii) : ascii :=
  if is_lower c then ascii_of_N (code c - 32) else c.

Fixpoint map (f : ascii -> ascii) (s : string) : string :=
  match s with
  | EmptyString => EmptyString
  | String c s' => String (f c) (map f s')
  end.

(** [s.lower()] on an ASCII string *)
Definition lower (s : string) : string := map lower_char s.

(** [s.title()] on an ASCII string: the first cased character of each
    run of cased characters is upper-cased, the others lower-cased. *)
Fixpoint title_from (prev_cased : bool) (s : string) : string :=
  match s with
  | EmptyString => EmptyString
  | String c s' =>
      if is_upper c || is_lower c
      then String (if prev_cased then lower_char c else upper_char c)
                  (title_from true s')
      else String c (title_from false s')
  end.

Definition title (s : string) : string := title_from false s.

(** [s[:n]] *)
Fixpoint take (n : nat) (s : string) : string :=
  match n, s with
  | S n', String c s' => String c (take n' s')
  | _, _ => EmptyString
  end.

Fixpoint all (p : ascii -> bool) (s : string) : bool :=
  match s with
  | EmptyString => true
  | String c s' => p c && all p s'
  end.

(** [s.isdigit()]: at least one character, and all of them digits. *)
Definition isdigit (s : string) : bool :=
  match s with
  | EmptyString => false
  | _ => all is_digit s
  end.

(** [sub in s] *)
Fixpoint contains (sub s : string) : bool :=
  prefix sub s
  || match s with
     | EmptyString => false
     | String _ s' => contains sub s'
     end.

(** The characters of [s], as [for c in s] yields them. *)
Fixpoint chars (s : string) : list string :=
  match s with
  | EmptyString => []
  | String c s' => String c EmptyString :: chars s'
  end.

Fixpoint drop_while (p : ascii -> bool) (l : list ascii) : list ascii :=
  match l with
  | [] => []
  | c :: l' => if p c then drop_while p l' else l
  end.

Definition strip (l : list ascii) : list ascii :=
  rev (drop_while is_space (rev (drop_while is_space l))).

(** Decimal digits with single underscores between digits. *)
Fixpoint digits_val (acc : Z) (after_digit : bool) (l : list ascii)
  : option Z :=
  match l with
  | [] => if after_digit then Some acc else None
  | c :: l' =>
      if is_digit c
      then digits_val (10 * acc + (Z.of_N (code c) - 48)) true l'
      else if (c =? "_")%char
           then if after_digit then digits_val acc false l' else None
           else None
  end.

(** [int(s)] in base 10; [None] is [ValueError]. *)
Definition parse_int (s : string) : option Z :=
  match strip (list_ascii_of_string s) with
  | c :: l =>
      if (c =? "-")%char then option_map Z.opp (digits_val 0 false l)
      else if (c =? "+")%char then digits_val 0 false l
      else digits_val 0 false (c :: l)
  | [] => None
  end.

End Str.

(* ================================================================= *)
(** ** Python's dynamic operations on JSON values *)

Module Py.

Fixpoint assoc (k : string) (kv : list (string * json)) : option json :=
  match kv with
  | [] => None
  | (k', v) :: kv' => if (k' =? k)%string then Some v else assoc k kv'
  end.

(** [bool(x)] *)
Definition truthy (x : json) : bool :=
  match x with
  | JNull => false
  | JBool b => b
  | JNum q => negb (Qeq_bool q 0)
  | JStr s => negb (s =? "")%string
  | JArr l => match l with [] => false | _ => true end
  | JObj kv => match kv with [] => false | _ => true end
  end.

(** [x[k]] for a string [k] *)
Definition subscript (x : json) (k : string) : res json :=
  match x with
  | JObj kv => match assoc k kv with Some v => Ok v | None => Raise KeyError end
  | _ => Raise TypeError
  end.

(** [x.get(k, default)] *)
Definition get (x : json) (k : string) (default : json) : res json :=
  match x with
  | JObj kv => match assoc k kv with Some v => Ok v | None => Ok default end
  | _ => Raise AttributeError
  end.

(** [x[0]]; a JSON object has string keys only, so [0] is never one. *)
Definition index0 (x : json) : res json :=
  match x with
  | JArr (y :: _) => Ok y
  | JArr [] => Raise IndexError
  | JStr (String c _) => Ok (JStr (String c EmptyString))
  | JStr EmptyString => Raise IndexError
  | JObj _ => Raise KeyError
  | _ => Raise TypeError
  end.

(** [x[:n]]; slicing a dict raises ([TypeError] up to Python 3.11,
    [KeyError] from 3.12), here [TypeError]. *)
Definition slice (n : nat) (x : json) : res json :=
  match x with
  | JStr s => Ok (JStr (Str.take n s))
  | JArr l => Ok (JArr (firstn n l))
  | _ => Raise TypeError
  end.

(** The items [for y in x] visits. *)
Definition iter (x : json) : res (list json) :=
  match x with
  | JArr l => Ok l
  | JStr s => Ok (List.map JStr (Str.chars s))
  | JObj kv => Ok (List.map (fun p => JStr (fst p)) kv)
  | _ => Raise TypeError
  end.

(** [x.lower()], with [str.lower] as [str_lower] *)
Definition lower (str_lower : string -> string) (x : json) : res string :=
  match x with
  | JStr s => Ok (str_lower s)
  | _ => Raise AttributeError
  end.

(** [x.isdigit()] *)
Definition isdigit (x : json) : res bool :=
  match x with
  | JStr s => Ok (Str.isdigit s)
  | _ => Raise AttributeError
  end.

(** [int(x)] *)
Definition int (x : json) : res Z :=
  match x with
  | JStr s =>
      match Str.parse_int s with Some z => Ok z | None => Raise ValueError end
  | JNum q => Ok (Z.quot (Qnum q) (Zpos (Qden q)))
  | JBool b => Ok (if b then 1%Z else 0%Z)
  | _ => Raise TypeError
  end.

(** [x == s] for a string literal [s] *)
Definition eq_str (x : json) (s : string) : bool :=
  match x with
  | JStr t => (t =? s)%string
  | _ => false
  end.

(** [k in x] for a string literal [k] *)
Definition contains (k : string) (x : json) : res bool :=
  match x with
  | JObj kv => Ok (match assoc k kv with Some _ => true | None => false end)
  | JArr l => Ok (existsb (fun y => eq_str y k) l)
  | JStr s => Ok (Str.contains k s)
  | _ => Raise TypeError
  end.

(** Hashable values: everything but lists and dicts. *)
Definition hashable (x : json) : bool :=
  match x with
  | JArr _ | JObj _ => false
  | _ => true
  end.

(** The numeric value of a number or a bool ([True == 1]). *)
Definition num_of (x : json) : option Q :=
  match x with
  | JNum q => Some q
  | JBool b => Some (if b then 1 else 0)
  | _ => None
  end.

(** [x == y] on hashable values *)
Definition eqb (x y : json) : bool :=
  match x, y with
  | JNull, JNull => true
  | JStr s, JStr t => (s =? t)%string
  | _, _ =>
      match num_of x, num_of y with
      | Some p, Some q => Qeq_bool p q
      | _, _ => false
      end
  end.

(** A Python [set] of hashable values, as the list of its members in
    insertion order (the iteration order of a real set is unspecified). *)
Definition pyset := list json.

(** [x in s] *)
Definition set_mem (x : json) (s : pyset) : res bool :=
  if hashable x then Ok (existsb (eqb x) s) else Raise TypeError.

(** [s.add(x)] *)
Definition set_add (x : json) (s : pyset) : res pyset :=
  if hashable x
  then Ok (if existsb (eqb x) s then s else s ++ [x])
  else Raise TypeError.

(** [set(l)] *)
Fixpoint set_of_from (s : pyset) (l : list json) : res pyset :=
  match l with
  | [] => Ok s
  | x :: l' => (s' <- set_add x s ;; set_of_from s' l')%res
  end.

Definition set_of (l : list json) : res pyset := set_of_from [] l.

(** [bool(s & t)] *)
Definition intersects (s t : pyset) : bool :=
  existsb (fun x => existsb (eqb x) t) s.

(** [sep.join(x)]: every item of [x] has to be a [str]. *)
Definition join (sep : string) (x : json) : res string :=
  (items <- iter x ;;
   parts <- res_map (fun item =>
                       match item with
                       | JStr s => Ok s
                       | _ => Raise TypeError
                       end) items ;;
   Ok (String.concat sep parts))%res.

End Py.

(* ================================================================= *)
(** ** [sorted(xs, key=lambda x: x.get(k, default), reverse=True)] *)

(** Python's sort is stable, also with [reverse=True]: items with equal
    keys keep their order.  The model is the stable insertion sort on the
    decorated list; any stable sort returns the same list. *)
Section StableSort.

Context {K A : Type}.
Variable leb : K -> K -> bool.

(** [x] came before every item of [l], so it goes in front of the first
    item whose key is not greater than its own. *)
Fixpoint insert_desc (x : K * A) (l : list (K * A)) : list (K * A) :=
  match l with
  | [] => [x]
  | y :: l' =>
      if leb (fst y) (fst x) then x :: y :: l' else y :: insert_desc x l'
  end.

Definition sort_desc (l : list (K * A)) : list (K * A) :=
  fold_right insert_desc [] l.

(** [x] may be visited before [y] in a descending order of the keys. *)
Definition desc (x y : K * A) : Prop := leb (fst y) (fst x) = true.

(** The items whose key is equivalent to [k]. *)
Definition same_key (k : K) (x : K * A) : bool :=
  leb (fst x) k && leb k (fst x).

End StableSort.

Fixpoint all_nums (keys : list json) : option (list Q) :=
  match keys with
  | [] => Some []
  | k :: keys' =>
      match Py.num_of k, all_nums keys' with
      | Some q, Some qs => Some (q :: qs)
      | _, _ => None
      end
  end.

Fixpoint all_strs (keys : list json) : option (list string) :=
  match keys with
  | [] => Some []
  | JStr s :: keys' => option_map (cons s) (all_strs keys')
  | _ :: _ => None
  end.

Definition is_arr (x : json) : bool :=
  match x with JArr _ => true | _ => false end.

(** The key function runs on every item first.  With two items or more
    the keys are compared: numbers (and bools) with numbers, strings with
    strings; any comparison across these classes, or between [None]s or
    dicts, raises [TypeError], and a sort cannot finish without one when
    the keys are not all of one class.  Keys that are all arrays compare
    element-wise in Python, with errors that depend on the comparisons the
    sort happens to make: [Unmodelled]. *)
Definition sorted_desc (k : string) (default : json) (xs : json)
  : res (list json) :=
  (items <- Py.iter xs ;;
   keys <- res_map (fun x => Py.get x k default) items ;;
   match items with
   | [] | [_] => Ok items
   | _ =>
       match all_nums keys with
       | Some qs => Ok (map snd (sort_desc Qle_bool (combine qs items)))
       | None =>
           match all_strs keys with
           | Some ss => Ok (map snd (sort_desc String.leb (combine ss items)))
           | None =>
               if forallb is_arr keys then Raise Unmodelled
               else Raise TypeError
           end
       end
   end)%res.

(** [[f(x) for x in l if p(x)]] *)
Fixpoint res_filter_map {A B} (p : A -> res bool) (f : A -> res B)
  (l : list A) : res (list B) :=
  match l with
  | [] => Ok []
  | x :: l' =>
      (b <- p x ;;
       if b : bool
       then (y <- f x ;; ys <- res_filter_map p f l' ;; Ok (y :: ys))
       else res_filter_map p f l')%res
  end.

(* ================================================================= *)
(** ** The remote service *)

(** The six URLs the code builds, under [https://api.themoviedb.org/3];
    an identifier is the JSON value that is interpolated into the URL.
    - [SearchMovie q]: [/search/movie?query={quote(q)}]
    - [MovieAppended id]: [/movie/{id}?append_to_response=similar,credits]
    - [Movie id]: [/movie/{id}]
    - [Collection id]: [/collection/{id}]
    - [GenreList]: [/genre/movie/list?language=en-US]
    - [Discover gs y]: [/discover/movie?sort_by=popularity.desc] with
      [with_genres={gs}], [primary_release_date.gte={y}] and [page=1] *)
Inductive request : Type :=
| SearchMovie (query : string)
| MovieAppended (movie_id : json)
| Movie (movie_id : json)
| Collection (collection_id : json)
| GenreList
| Discover (with_genres : string) (release_gte : Z).

(** A recommendation: [(title, poster, justification)]. *)
Definition recommendation : Type := (json * string * string)%type.

Definition rec_title (r : recommendation) : json := fst (fst r).
Definition rec_poster (r : recommendation) : string := snd (fst r).
Definition rec_source (r : recommendation) : string := snd r.

Definition poster_error : string :=
  "https://via.placeholder.com/300x450?text=Error".
Definition poster_none : string :=
  "https://via.placeholder.com/300x450?text=No+Poster".
Definition poster_not_found : string :=
  "https://via.placeholder.com/300x450?text=Not+Found".
Definition image_base : string := "https://image.tmdb.org/t/p/w500".

Definition from_collection : string := "From the same series/collection".
Definition from_similar : string := "Similar movie based on genre and recency".
Definition from_fallback : string := "Genre-based fallback recommendation".

Declare Scope io_scope.
Delimit Scope io_scope with io.

Section Model.

(** The state of the outside world and the service's answer to a request
    in it; [None] is an exception out of [requests.get(url).json()]. *)
Variable World : Type.
Variable http : World -> request -> option json * World.

(** [str(x)] of a value that is not a string (a number, [None], a list),
    as an f-string interpolates it. *)
Variable render : json -> string.

(** [str.lower] and [str.title], the Unicode case mappings of Python. *)
Variable str_lower : string -> string.
Variable str_title : string -> string.

(** [f"{x}"] *)
Definition fmt (x : json) : string :=
  match x with
  | JStr s => s
  | _ => render x
  end.

(** Computations that call the service and may raise. *)
Definition M (A : Type) : Type := World -> res A * World.

Definition ret {A} (a : A) : M A := fun w => (Ok a, w).

Definition bind {A B} (m : M A) (k : A -> M B) : M B :=
  fun w =>
    match m w with
    | (Ok a, w') => k a w'
    | (Raise e, w') => (Raise e, w')
    end.

Definition lift {A} (r : res A) : M A := fun w => (r, w).

Notation "x <- m ;; k" := (bind m (fun x => k))
  (at level 61, m at next level, right associativity) : io_scope.
Notation "' p <- m ;; k" := (bind m (fun x => match x with p => k end))
  (at level 61, p pattern, m at next level, right associativity) : io_scope.

(** [requests.get(url, timeout=10).json()] *)
Definition requests_get_json (r : request) : M json :=
  fun w =>
    match http w r with
    | (Some j, w') => (Ok j, w')
    | (None, w') => (Raise RequestError, w')
    end.

(** [try: body / except: ...]: [None] when the handler runs.  Both
    [except Exception] and the bare [except] catch every exception of
    the model. *)
Definition attempt {A} (body : M A) : M (option A) :=
  fun w =>
    match body w with
    | (Ok a, w') => (Ok (Some a), w')
    | (Raise Unmodelled, w') => (Raise Unmodelled, w')
    | (Raise _, w') => (Ok None, w')
    end.

(** [quote(title)]: a [str] is quoted, anything else is refused. *)
Definition quote (title : json) : res string :=
  match title with
  | JStr s => Ok s
  | _ => Raise TypeError
  end.

(* --------------------------------------------------------------- *)
(** *** [fetch_movie_data_from_api] *)

(** [sorted(results, key=lambda x: x.get('popularity', 0),
            reverse=True)[0]] *)
Definition best_match (results : json) : res json :=
  (sorted_results <- sorted_desc "popularity" (JNum 0) results ;;
   match sorted_results with
   | x :: _ => Ok x
   | [] => Raise IndexError
   end)%res.

(** The dict literal of lines 32-41, its entries evaluated in order. *)
Definition movie_info_of (details : json) : res json :=
  (title <- Py.get details "title" JNull ;;
   genres <- Py.get details "genres" (JArr []) ;;
   gs <- Py.iter genres ;;
   genre <- res_map (fun g => Py.subscript g "name") gs ;;
   release_date <- Py.get details "release_date" (JStr "") ;;
   year <- Py.slice 4 release_date ;;
   credits <- Py.get details "credits" (JObj []) ;;
   cast_all <- Py.get credits "cast" (JArr []) ;;
   cast5 <- Py.slice 5 cast_all ;;
   cs <- Py.iter cast5 ;;
   cast <- res_map (fun c => Py.subscript c "name") cs ;;
   credits' <- Py.get details "credits" (JObj []) ;;
   crew <- Py.get credits' "crew" (JArr []) ;;
   ws <- Py.iter crew ;;
   director <-
     res_filter_map
       (fun c => job <- Py.subscript c "job" ;; Ok (Py.eq_str job "Director"))
       (fun c => Py.subscript c "name") ws ;;
   overview <- Py.get details "overview" (JStr "No description available.") ;;
   rating <- Py.get details "vote_average" (JStr "N/A") ;;
   sim <- Py.get details "similar" (JObj []) ;;
   similar <- Py.get sim "results" (JArr []) ;;
   Ok (JObj [("title", title); ("genre", JArr genre); ("year", year);
             ("cast", JArr cast); ("director", JArr director);
             ("overview", overview); ("rating", rating);
             ("similar", similar)]))%res.

(** Returns [(movie_info, movie_id)], or [(None, None)] as
    [(JNull, JNull)]. *)
Definition fetch_movie_data_from_api (movie_title : string)
  : M (json * json) :=
  (r <- attempt (requests_get_json (SearchMovie movie_title)) ;;
   match r with
   | None => ret (JNull, JNull)
   | Some response =>
       results <- lift (Py.subscript response "results") ;;
       if Py.truthy results then
         best <- lift (best_match results) ;;
         movie_id <- lift (Py.subscript best "id") ;;
         d <- attempt (requests_get_json (MovieAppended movie_id)) ;;
         match d with
         | None => ret (JNull, JNull)
         | Some details =>
             movie_info <- lift (movie_info_of details) ;;
             ret (movie_info, movie_id)
         end
       else ret (JNull, JNull)
   end)%io.

(* --------------------------------------------------------------- *)
(** *** [fetch_movie_collection] *)

(** ['release_date' in item and item['release_date'][:4].isdigit()] *)
Definition has_year (item : json) : res bool :=
  (present <- Py.contains "release_date" item ;;
   if present : bool then
     release_date <- Py.subscript item "release_date" ;;
     prefix <- Py.slice 4 release_date ;;
     Py.isdigit prefix
   else Ok false)%res.

(** Returns [(titles, collection_id)], [None] as [JNull]. *)
Definition fetch_movie_collection (movie_id : json)
  : M (list json * json) :=
  (r <- attempt (requests_get_json (Movie movie_id)) ;;
   match r with
   | None => ret ([], JNull)
   | Some details =>
       collection <- lift (Py.get details "belongs_to_collection" JNull) ;;
       collection_id <-
         (if Py.truthy collection
          then lift (Py.get collection "id" JNull)
          else ret JNull) ;;
       if Py.truthy collection_id then
         c <- attempt (requests_get_json (Collection collection_id)) ;;
         match c with
         | None => ret ([], collection_id)
         | Some coll =>
             parts <- lift (Py.get coll "parts" (JArr [])) ;;
             items <- lift (Py.iter parts) ;;
             titles <-
               lift (res_filter_map has_year
                       (fun item => Py.subscript item "title") items) ;;
             ret (titles, collection_id)
         end
       else ret ([], JNull)
   end)%io.

(* --------------------------------------------------------------- *)
(** *** [fetch_poster] *)

Definition fetch_poster (movie_title : json) : M string :=
  (query <- lift (quote movie_title) ;;
   r <- attempt (requests_get_json (SearchMovie query)) ;;
   match r with
   | None => ret poster_error
   | Some response =>
       results <- lift (Py.subscript response "results") ;;
       if Py.truthy results then
         top <- lift (Py.index0 results) ;;
         poster_path <- lift (Py.get top "poster_path" JNull) ;;
         if Py.truthy poster_path then
           path <- lift (Py.subscript top "poster_path") ;;
           ret (image_base ++ fmt path)%string
         else ret poster_none
       else ret poster_none
   end)%io.

(* --------------------------------------------------------------- *)
(** *** [recommend] *)

(** The two accumulators of the cascade: [recommendations] in append
    order and [used_titles]. *)
Definition state : Type := (list recommendation * Py.pyset)%type.

(** [recommendations.append((title, poster, source))] followed by
    [used_titles.add(title)]. *)
Definition accept (title : json) (source : string) (st : state) : M state :=
  (poster <- fetch_poster title ;;
   used <- lift (Py.set_add title (snd st)) ;;
   ret (fst st ++ [(title, poster, source)], used))%io.

(** Lines 86-92.  [limit] is the literal [5] of the source. *)
Fixpoint stage1 (limit : nat) (movie_info : json) (sequels : list json)
  (st : state) : M state :=
  match sequels with
  | [] => ret st
  | title :: rest =>
      (lowered <- lift (Py.lower str_lower title) ;;
       own <- lift (Py.subscript movie_info "title") ;;
       own_lowered <- lift (Py.lower str_lower own) ;;
       st' <- (if negb (lowered =? own_lowered)%string
               then accept title from_collection st
               else ret st) ;;
       if (limit <=? List.length (fst st'))%nat then ret st'
       else stage1 limit movie_info rest st')%io
  end.

(** Lines 108-111: the body of the [try] of the second stage. *)
Definition candidate_genres (movie_id : json) : M Py.pyset :=
  (genre_resp <- requests_get_json (Movie movie_id) ;;
   lift (genres <- Py.get genre_resp "genres" (JArr []) ;;
         gs <- Py.iter genres ;;
         names <- res_map (fun g => Py.subscript g "name") gs ;;
         Py.set_of names)%res)%io.

(** [not title or not release_date or title in used_titles] *)
Definition skipped (title release_date : json) (used : Py.pyset)
  : res bool :=
  if negb (Py.truthy title) then Ok true
  else if negb (Py.truthy release_date) then Ok true
  else Py.set_mem title used.

(** Lines 100-120. *)
Fixpoint stage2 (limit : nat) (original_genres : Py.pyset)
  (original_year : Z) (sorted_similars : list json) (st : state)
  : M state :=
  match sorted_similars with
  | [] => ret st
  | movie :: rest =>
      (title <- lift (Py.get movie "title" JNull) ;;
       release_date <- lift (Py.get movie "release_date" JNull) ;;
       skip <- lift (skipped title release_date (snd st)) ;;
       if skip : bool
       then stage2 limit original_genres original_year rest st
       else
         prefix <- lift (Py.slice 4 release_date) ;;
         year <- lift (Py.int prefix) ;;
         if (year <? original_year - 2)%Z
         then stage2 limit original_genres original_year rest st
         else
           movie_id <- lift (Py.subscript movie "id") ;;
           g <- attempt (candidate_genres movie_id) ;;
           match g with
           | None => stage2 limit original_genres original_year rest st
           | Some movie_genres =>
               if negb (Py.intersects original_genres movie_genres)
               then stage2 limit original_genres original_year rest st
               else
                 st' <- accept title from_similar st ;;
                 if (limit <=? List.length (fst st'))%nat then ret st'
                 else stage2 limit original_genres original_year rest st'
           end)%io
  end.

(** Lines 127-129: one genre of the movie against the vocabulary. *)
Fixpoint match_genre (g : json) (vocabulary : list json)
  (genre_ids : list string) : res (list string) :=
  match vocabulary with
  | [] => Ok genre_ids
  | g_map :: rest =>
      (name <- Py.subscript g_map "name" ;;
       name_lowered <- Py.lower str_lower name ;;
       g_lowered <- Py.lower str_lower g ;;
       if (name_lowered =? g_lowered)%string
       then id <- Py.subscript g_map "id" ;;
            match_genre g rest (genre_ids ++ [fmt id])
       else match_genre g rest genre_ids)%res
  end.

(** Lines 126-129. *)
Fixpoint collect_genre_ids (genre_data : json) (original_genres : list json)
  (genre_ids : list string) : res (list string) :=
  match original_genres with
  | [] => Ok genre_ids
  | g :: rest =>
      (genres <- Py.get genre_data "genres" (JArr []) ;;
       vocabulary <- Py.iter genres ;;
       genre_ids' <- match_genre g vocabulary genre_ids ;;
       collect_genre_ids genre_data rest genre_ids')%res
  end.

(** Lines 137-144. *)
Fixpoint stage3 (limit : nat) (results : list json) (st : state)
  : M state :=
  match results with
  | [] => ret st
  | movie :: rest =>
      (title <- lift (Py.get movie "title" JNull) ;;
       fresh <- lift (if Py.truthy title
                      then (used <- Py.set_mem title (snd st) ;;
                            Ok (negb used))%res
                      else Ok false) ;;
       st' <- (if fresh : bool
               then accept title from_fallback st
               else ret st) ;;
       if (limit <=? List.length (fst st'))%nat then ret st'
       else stage3 limit rest st')%io
  end.

(** Lines 122-144; neither request is inside a [try]. *)
Definition fallback (limit : nat) (original_genres : Py.pyset)
  (original_year : Z) (st : state) : M state :=
  (genre_data <- requests_get_json GenreList ;;
   genre_ids <- lift (collect_genre_ids genre_data original_genres []) ;;
   match genre_ids with
   | [] => ret st
   | _ =>
       fallback_resp <-
         requests_get_json
           (Discover (String.concat "," genre_ids) original_year) ;;
       results <- lift (Py.get fallback_resp "results" (JArr [])) ;;
       movies <- lift (Py.iter results) ;;
       stage3 limit movies st
   end)%io.

(** [sorted(movie_info['similar'],
            key=lambda x: x.get("release_date", "1900"), reverse=True)] *)
Definition sorted_similars (similar : json) : res (list json) :=
  sorted_desc "release_date" (JStr "1900") similar.

(** Line 82: [set(movie_info.get("genre", []))] *)
Definition original_genres_of (movie_info : json) : res Py.pyset :=
  (genre <- Py.get movie_info "genre" (JArr []) ;;
   genres <- Py.iter genre ;;
   Py.set_of genres)%res.

(** Line 83: [int(movie_info.get("year", "2000"))] *)
Definition original_year_of (movie_info : json) : res Z :=
  (year <- Py.get movie_info "year" (JStr "2000") ;;
   Py.int year)%res.

Definition not_found (movie_title : string) : list recommendation * json :=
  ([(JStr "Movie not found", poster_not_found, "")],
   JStr (str_title movie_title)).

(** [recommend] with the literal [5] as [limit]. *)
Definition recommend_upto (limit : nat) (movie_title : string)
  : M (list recommendation * json) :=
  ('(movie_info, movie_id) <- fetch_movie_data_from_api movie_title ;;
   if negb (Py.truthy movie_info) then ret (not_found movie_title)
   else
     original_genres <- lift (original_genres_of movie_info) ;;
     original_year <- lift (original_year_of movie_info) ;;
     '(sequels, collection_id) <- fetch_movie_collection movie_id ;;
     st1 <- stage1 limit movie_info sequels ([], []) ;;
     st2 <- (if (List.length (fst st1) <? limit)%nat
             then
               similar <- lift (Py.subscript movie_info "similar") ;;
               candidates <- lift (sorted_similars similar) ;;
               stage2 limit original_genres original_year candidates st1
             else ret st1) ;;
     st3 <- (if (List.length (fst st2) <? limit)%nat
             then fallback limit original_genres original_year st2
             else ret st2) ;;
     ret (fst st3, movie_info))%io.

Definition recommend (movie_title : string)
  : M (list recommendation * json) :=
  recommend_upto 5 movie_title.

(* --------------------------------------------------------------- *)
(** *** The page (lines 158-180) *)

(** What the page shows, in order.  A widget carries the values the code
    interpolates; the fixed decoration of the f-strings is left out.
    - [Heading t]: [st.markdown(f"### .. Recommendations for: `{t}`")]
    - [Info label v]: [st.write(f"**{label}:** {v}")] in the expander
    - [Image url caption]: [st.image(url, caption=caption)] in a column
    - [Caption s]: [st.caption(s)] in the same column *)
Inductive widget : Type :=
| Heading (title : string)
| Info (label value : string)
| Image (poster_url : string) (caption : json)
| Caption (source : string).

(** A run of the page: what the handler wrote, and how the run ended.
    What was written before an exception stays on the page.  The error
    boxes that the fetch functions write with [st.error] when a request
    fails are not recorded. *)
Definition shown (A : Type) : Type := (list widget * res A)%type.

Definition say (x : widget) : shown unit := ([x], Ok tt).

Definition eval {A} (r : res A) : shown A := ([], r).

Definition then_show {A B} (m : shown A) (k : A -> shown B) : shown B :=
  match m with
  | (out, Ok a) => let (out', r) := k a in (out ++ out', r)
  | (out, Raise e) => (out, Raise e)
  end.

Notation "x <~ m ;; k" := (then_show m (fun x => k))
  (at level 61, m at next level, right associativity) : io_scope.

(** Lines 177-180; [recommendations[:5]] has at most five items, so
    [cols[idx]] is always one of the five columns. *)
Fixpoint show_cards (cards : list recommendation) : shown unit :=
  match cards with
  | [] => eval (Ok tt)
  | (title, poster_url, source) :: rest =>
      (_ <~ say (Image poster_url title) ;;
       _ <~ say (Caption source) ;;
       show_cards rest)%io
  end.

(** Lines 166-180. *)
Definition show_results (recommendations : list recommendation)
  (movie_info : json) : shown unit :=
  (title <~ eval (Py.subscript movie_info "title") ;;
   _ <~ say (Heading (fmt title)) ;;
   genre <~ eval (Py.subscript movie_info "genre") ;;
   genres <~ eval (Py.join ", " genre) ;;
   _ <~ say (Info "Genres" genres) ;;
   year <~ eval (Py.subscript movie_info "year") ;;
   _ <~ say (Info "Release Year" (fmt year)) ;;
   cast <~ eval (Py.subscript movie_info "cast") ;;
   casts <~ eval (Py.join ", " cast) ;;
   _ <~ say (Info "Cast" casts) ;;
   director <~ eval (Py.subscript movie_info "director") ;;
   directors <~ eval (Py.join ", " director) ;;
   _ <~ say (Info "Director" directors) ;;
   rating <~ eval (Py.subscript movie_info "rating") ;;
   _ <~ say (Info "Rating" (fmt rating)) ;;
   overview <~ eval (Py.subscript movie_info "overview") ;;
   _ <~ say (Info "Overview" (fmt overview)) ;;
   show_cards (firstn 5 recommendations))%io.

(** Lines 162-180: the handler of the form. *)
Definition on_submit (submit : bool) (movie_input : string)
  : World -> shown unit * World :=
  fun w =>
    if submit && negb (movie_input =? "")%string then
      match recommend movie_input w with
      | (Ok (recommendations, movie_info), w') =>
          (show_results recommendations movie_info, w')
      | (Raise e, w') => (([], Raise e), w')
      end
    else (([], Ok tt), w).

End Model.

Arguments ret {World A} a w.
Arguments bind {World A B} m k w.
Arguments lift {World A} r w.
Arguments attempt {World A} body w.
Arguments requests_get_json {World} http r w.
Arguments fetch_movie_data_from_api {World} http movie_title w.
Arguments fetch_movie_collection {World} http movie_id w.
Arguments fetch_poster {World} http render movie_title w.
Arguments accept {World} http render title source st w.
Arguments stage1 {World} http render str_lower limit movie_info sequels st w.
Arguments candidate_genres {World} http movie_id w.
Arguments stage2 {World} http render limit original_genres original_year
  sorted_similars st w.
Arguments stage3 {World} http render limit results st w.
Arguments fallback {World} http render str_lower limit original_genres
  original_year st w.
Arguments recommend_upto {World} http render str_lower str_title limit
  movie_title w.
Arguments recommend {World} http render str_lower str_title movie_title w.
Arguments say x : simpl never.
Arguments on_submit {World} http render str_lower str_title submit
  movie_input w.

(* ================================================================= *)
(** ** Vocabulary of the statements *)

(** The popularity score the search compares: [x.get('popularity', 0)],
    when it is a number. *)
Definition popularity (x : json) : option Q :=
  match Py.get x "popularity" (JNum 0) with
  | Ok k => Py.num_of k
  | Raise _ => None
  end.

(** The key the second stage sorts by: [x.get("release_date", "1900")],
    when it is a string. *)
Definition release_key (x : json) : option string :=
  match Py.get x "release_date" (JStr "1900") with
  | Ok (JStr s) => Some s
  | _ => None
  end.

(** [x] may be visited before [y] by the second stage: the key of [x]
    is not smaller than the key of [y]. *)
Definition not_older (x y : json) : Prop :=
  exists s t,
    release_key x = Some s /\ release_key y = Some t
    /\ String.leb t s = true.

(** The candidates whose key is [s]. *)
Definition keyed (s : string) (x : json) : bool :=
  match release_key x with
  | Some t => (t =? s)%string
  | None => false
  end.

(** The key as the specification words it: the raw release-date string,
    an empty or missing one counted as "1900". *)
Definition spec_release_key (x : json) : string :=
  match Py.get x "release_date" JNull with
  | Ok (JStr s) => if (s =? "")%string then "1900" else s
  | _ => "1900"
  end.

(** What the second stage requires of a candidate [movie] it accepts
    under [title]: a release year not more than two years before
    [original_year], and a fetched genre set that meets
    [original_genres]. *)
Definition eligible {World : Type}
  (http : World -> request -> option json * World)
  (original_genres : Py.pyset) (original_year : Z)
  (title movie : json) : Prop :=
  exists release_date prefix year movie_id movie_genres w1 w2,
    Py.get movie "title" JNull = Ok title
    /\ Py.get movie "release_date" JNull = Ok release_date
    /\ Py.slice 4 release_date = Ok prefix
    /\ Py.int prefix = Ok year
    /\ (original_year - 2 <= year)%Z
    /\ Py.subscript movie "id" = Ok movie_id
    /\ candidate_genres http movie_id w1 = (Ok movie_genres, w2)
    /\ Py.intersects original_genres movie_genres = true.

(** What a stage leaves behind: the entries it found in [before], then
    entries of its own, each satisfying [P]; and never more than [limit]
    entries when it started below [limit]. *)
Definition extends (limit : nat) (P : recommendation -> Prop)
  (before after : list recommendation) : Prop :=
  exists added,
    after = before ++ added
    /\ Forall P added
    /\ (List.length before < limit -> List.length after <= limit)%nat.

(** Where an entry of the list comes from, by its justification. *)
Definition origin {World : Type}
  (http : World -> request -> option json * World)
  (movie_info : json) (r : recommendation) : Prop :=
  rec_source r = from_collection
  \/ rec_source r = from_fallback
  \/ (rec_source r = from_similar
      /\ exists original_genres original_year similar candidates movie,
           original_genres_of movie_info = Ok original_genres
           /\ original_year_of movie_info = Ok original_year
           /\ Py.subscript movie_info "similar" = Ok similar
           /\ Py.iter similar = Ok candidates
           /\ In movie candidates
           /\ eligible http original_genres original_year
                (rec_title r) movie).

(** The entry [k] of a record, [None] when there is none. *)
Definition field (k : string) (x : json) : json :=
  match Py.subscript x k with
  | Ok v => v
  | Raise _ => JNull
  end.

(** The test of line 87 passed: [title] and the resolved title are
    strings that differ when lower-cased. *)
Definition differs_from_resolved (str_lower : string -> string)
  (movie_info title : json) : Prop :=
  exists lowered own own_lowered,
    Py.lower str_lower title = Ok lowered
    /\ Py.subscript movie_info "title" = Ok own
    /\ Py.lower str_lower own = Ok own_lowered
    /\ lowered <> own_lowered.

(** The tests of lines 103 and 139 passed: [title] is truthy and not in
    [used_titles]. *)
Definition fresh_title (title : json) (used : Py.pyset) : Prop :=
  Py.truthy title = true /\ Py.set_mem title used = Ok false.

(** The three URLs [fetch_poster] can return. *)
Definition poster_shape (url : string) : Prop :=
  url = poster_error
  \/ url = poster_none
  \/ exists path, url = (image_base ++ path)%string.

(** No entry of the second or third stage repeats the title of an entry
    before it. *)
Definition late_titles_new (recs : list recommendation) : Prop :=
  forall before r after,
    recs = before ++ r :: after ->
    rec_source r <> from_collection ->
    forall r', In r' before -> Py.eqb (rec_title r) (rec_title r') = false.

(** The names of the crew members whose job is "Director". *)
Definition directors_of (crew : list json) : list json :=
  map (field "name")
    (filter (fun c => Py.eq_str (field "job" c) "Director") crew).

(** The ids of the vocabulary entries named [name], whatever the case. *)
Definition ids_named (render : json -> string)
  (str_lower : string -> string) (name : string)
  (vocabulary : list json) : list string :=
  map (fun g_map => fmt render (field "id" g_map))
    (filter (fun g_map =>
               match field "name" g_map with
               | JStr n => (str_lower n =? str_lower name)%string
               | _ => false
               end) vocabulary).

(** The widgets of the expander and the cards of a page that
    completed. *)
Definition cards_of (recs : list recommendation) : list widget :=
  flat_map (fun r => [Image (rec_poster r) (rec_title r);
                      Caption (rec_source r)]) recs.

(** A computation without requests raises no [RequestError]. *)
Definition quiet {A} (r : res A) : Prop := r <> Raise RequestError.

(** A computation that lets no [RequestError] out. *)
Definition calm {World A : Type} (m : M World A) : Prop :=
  forall w w', m w <> (Raise RequestError, w').

(** [used_titles] covers the list: a title that is not in it differs
    from the title of every entry. *)
Definition covered (st : list recommendation * Py.pyset) : Prop :=
  forall r t,
    In r (fst st) ->
    existsb (Py.eqb t) (snd st) = false ->
    Py.eqb t (rec_title r) = false.

(** An entry of the genre vocabulary as upstream sends it: an object
    with a name that is a string, and an id. *)
Definition genre_entry (g_map : json) : Prop :=
  exists name id,
    Py.subscript g_map "name" = Ok (JStr name)
    /\ Py.subscript g_map "id" = Ok id.

(** The ids of the genres of the movie, genre by genre. *)
Definition genre_ids_of (render : json -> string)
  (str_lower : string -> string) (vocabulary : list json)
  (genres : list string) : list string :=
  flat_map (fun name => ids_named render str_lower name vocabulary) genres.

(** The seven widgets above the cards. *)
Definition info_widgets (title genres year cast director rating overview
                         : string) : list widget :=
  [Heading title; Info "Genres" genres; Info "Release Year" year;
   Info "Cast" cast; Info "Director" director; Info "Rating" rating;
   Info "Overview" overview].









(** [spec_release_key] in descending order. *)
Definition spec_not_older (x y : json) : Prop :=
  String.leb (spec_release_key y) (spec_release_key x) = true.

(** A collection member as upstream sends it: an object with a title
    whose release date is a string, or absent. *)
Inductive member : json -> Prop :=
| member_dated kv title date :
    Py.assoc "title" kv = Some title ->
    Py.assoc "release_date" kv = Some (JStr date) ->
    member (JObj kv)
| member_undated kv title :
    Py.assoc "title" kv = Some title ->
    Py.assoc "release_date" kv = None ->
    member (JObj kv).

(** The first four characters (the whole string when it is shorter) are
    all digits, and there is at least one. *)
Definition first_four_digits (date : string) : bool :=
  negb (Str.take 4 date =? "")%string && Str.all Str.is_digit (Str.take 4 date).

(** The release-date field is present and its first four characters are
    all digits. *)
Definition has_release_year (item : json) : bool :=
  match item with
  | JObj kv =>
      match Py.assoc "release_date" kv with
      | Some (JStr date) => first_four_digits date
      | _ => false
      end
  | _ => false
  end.

Definition title_of (item : json) : json :=
  match item with
  | JObj kv =>
      match Py.assoc "title" kv with
      | Some title => title
      | None => JNull
      end
  | _ => JNull
  end.

(* ================================================================= *)
(** ** Scenarios: concrete services *)

Module Scenario.

Definition JInt (z : Z) : json := JNum (inject_Z z).

(** [str(x)] for the values the scenarios interpolate: integers. *)
Definition render (x : json) : string :=
  match x with
  | JNum q => DecimalString.NilZero.string_of_int (Z.to_int (Qnum q))
  | JNull => "None"
  | JBool true => "True"
  | JBool false => "False"
  | _ => ""
  end.

Definition id_is (x : json) (z : Z) : bool :=
  match x with
  | JNum q => Qeq_bool q (inject_Z z)
  | _ => false
  end.

(** A service whose answers do not depend on time; the world counts the
    requests made. *)
Definition serve (answer : request -> option json)
  : nat -> request -> option json * nat :=
  fun w r => (answer r, S w).

Definition genre (id : Z) (name : string) : json :=
  JObj [("id", JInt id); ("name", JStr name)].

Definition hit (id : Z) (popularity : Q) (poster_path : string) : json :=
  JObj [("id", JInt id); ("popularity", JNum popularity);
        ("poster_path", JStr poster_path)].

Definition dated (id : Z) (title release_date : string) : json :=
  JObj [("id", JInt id); ("title", JStr title);
        ("release_date", JStr release_date)].

Definition search_inception : json :=
  JObj [("page", JInt 1);
        ("results", JArr [hit 64956 (32 # 10) "/cameo.jpg";
                          hit 27205 (805 # 10) "/inception.jpg"])].

Definition inception (release : list (string * json)) : json :=
  JObj ([("id", JInt 27205); ("title", JStr "Inception");
         ("genres", JArr [genre 28 "Action"; genre 878 "Science Fiction"])]
        ++ release ++
        [("credits",
          JObj [("cast", JArr [JObj [("name", JStr "Leonardo DiCaprio")]]);
                ("crew", JArr [JObj [("job", JStr "Director");
                                     ("name", JStr "Christopher Nolan")];
                               JObj [("job", JStr "Producer");
                                     ("name", JStr "Emma Thomas")]])]);
         ("vote_average", JNum (84 # 10));
         ("similar",
          JObj [("results",
                 JArr [dated 11 "Old Movie" "1990-01-01";
                       dated 157336 "Interstellar" "2014-11-05"])])]).

Definition vocabulary : json :=
  JObj [("genres", JArr [genre 28 "Action"; genre 18 "Drama";
                         genre 878 "Science Fiction"])].

Definition discovered : json :=
  JObj [("results", JArr [dated 27205 "Inception" "2010-07-15";
                          dated 157336 "Interstellar" "2014-11-05";
                          dated 19995 "Avatar" "2009-12-15"])].

Definition poster_hit (query : string) : json :=
  JObj [("results", JArr [JObj [("poster_path", JStr ("/" ++ query))]])].

(** The spec's example: "Inception" (2010, Action and Science Fiction),
    no collection, "Interstellar" and "Old Movie" as similar titles. *)
Definition answer_inception (release : list (string * json))
  (genre_list : option json) (r : request) : option json :=
  match r with
  | SearchMovie "inception" => Some search_inception
  | SearchMovie query => Some (poster_hit query)
  | MovieAppended id =>
      if id_is id 27205 then Some (inception release) else None
  | Movie id =>
      if id_is id 27205 then Some (JObj [("belongs_to_collection", JNull)])
      else if id_is id 157336
           then Some (JObj [("genres", JArr [genre 878 "Science Fiction"])])
      else if id_is id 11
           then Some (JObj [("genres", JArr [genre 18 "Drama"])])
      else None
  | Collection _ => None
  | GenreList => genre_list
  | Discover _ _ => Some discovered
  end.

(** Candidates of the second stage: one with an empty release date, one
    of 1899, one without the field. *)
Definition lost_reel : json := dated 1 "Lost Reel" "".
Definition cinderella : json := dated 2 "Cinderella" "1899-10-01".
Definition untitled : json :=
  JObj [("id", JInt 3); ("title", JStr "Untitled Project")].
Definition interstellar : json := dated 157336 "Interstellar" "2014-11-05".

Definition released : list (string * json) :=
  [("release_date", JStr "2010-07-15")].

(** All lookups succeed. *)
Definition http_inception := serve (answer_inception released (Some vocabulary)).

(** The genre-vocabulary request of the third stage fails. *)
Definition http_no_vocabulary := serve (answer_inception released None).

(** Upstream has no release date for the movie: it sends the empty
    string. *)
Definition http_undated :=
  serve (answer_inception [("release_date", JStr "")] (Some vocabulary)).

(** The search finds nothing. *)
Definition http_nothing :=
  serve (fun r =>
           match r with
           | SearchMovie _ => Some (JObj [("results", JArr [])])
           | _ => None
           end).

(** The search finds the movie, every other request fails. *)
Definition http_search_only :=
  serve (fun r =>
           match r with
           | SearchMovie _ => Some search_inception
           | _ => None
           end).

(** A movie of a collection of four, one member undated and one whose
    title repeats. *)
Definition saga : json :=
  JObj [("id", JInt 10);
        ("parts", JArr [dated 1 "Saga" "1999-05-01";
                        dated 2 "Saga Returns" "2002-05-01";
                        dated 3 "Saga Forever" "";
                        JObj [("id", JInt 4); ("title", JStr "Saga: Origins")];
                        dated 5 "Saga Returns" "2019-05-01"])].

Definition http_saga :=
  serve (fun r =>
           match r with
           | SearchMovie "saga" =>
               Some (JObj [("results", JArr [hit 1 (5 # 1) "/saga.jpg"])])
           | SearchMovie query => Some (poster_hit query)
           | MovieAppended id =>
               Some (JObj [("title", JStr "Saga");
                           ("release_date", JStr "1999-05-01")])
           | Movie id =>
               Some (JObj [("belongs_to_collection",
                            JObj [("id", JInt 10); ("name", JStr "Saga")])])
           | Collection id => if id_is id 10 then Some saga else None
           | GenreList => Some vocabulary
           | Discover _ _ => None
           end).

(** The service refuses the API key: every answer is its error body. *)
Definition refusal : json :=
  JObj [("success", JBool false); ("status_code", JInt 7);
        ("status_message", JStr "Invalid API key")].

Definition http_refused := serve (fun _ => Some refusal).

(** A movie with nothing around it: no collection, no similar titles,
    and a genre the vocabulary does not have. *)
Definition obscure : json :=
  JObj [("id", JInt 404); ("title", JStr "The Lost Reel");
        ("genres", JArr [genre 0 "Home Movie"]);
        ("release_date", JStr "1931-02-03")].

Definition http_obscure :=
  serve (fun r =>
           match r with
           | SearchMovie _ =>
               Some (JObj [("results", JArr [hit 404 (1 # 10) ""])])
           | MovieAppended _ => Some obscure
           | Movie _ => Some obscure
           | Collection _ => None
           | GenreList => Some vocabulary
           | Discover _ _ => None
           end).

(** A candidate of the second stage whose release date is no date. *)
Definition announced : json := dated 7 "Coming Soon" "TBA".

(** What [recommend] returns in the two scenarios that complete. *)
Definition returned_by (run : res (list recommendation * json) * nat)
  : list recommendation * json :=
  match run with
  | (Ok r, _) => r
  | (Raise _, _) => ([], JNull)
  end.

Definition inception_result : list recommendation * json :=
  Eval vm_compute in
    returned_by (recommend http_inception render Str.lower Str.title
        "inception" 0%nat).

Definition saga_result : list recommendation * json :=
  Eval vm_compute in
    returned_by (recommend http_saga render Str.lower Str.title "saga" 0%nat).

Definition obscure_info : json :=
  Eval vm_compute in
    snd (returned_by (recommend http_obscure render Str.lower Str.title
        "the lost reel" 0%nat)).

(** What the page shows for "saga". *)
Definition saga_page : list widget :=
  Eval vm_compute in
    fst (fst (on_submit http_saga render Str.lower Str.title
        true "saga" 0%nat)).

End Scenario.

(* ================================================================= *)
(** * Properties *)

(** ** The string primitives on examples *)

Example lower_ex : Str.lower "The Dark KNIGHT 2" = "the dark knight 2".
Proof. reflexivity. Qed.

Example title_ex : Str.title "the dARK knight's 2nd" = "The Dark Knight'S 2Nd".
Proof. reflexivity. Qed.

Example parse_int_ex :
  Str.parse_int "2010" = Some 2010%Z /\ Str.parse_int "" = None
  /\ Str.parse_int " -1_0 " = Some (-10)%Z /\ Str.parse_int "20-1" = None
  /\ Str.parse_int "1__0" = None /\ Str.parse_int "_10" = None.
Proof. repeat split; reflexivity. Qed.

Example isdigit_ex :
  Str.isdigit (Str.take 4 "2010-07-16") = true
  /\ Str.isdigit (Str.take 4 "") = false
  /\ Str.isdigit (Str.take 4 "20") = true
  /\ Str.isdigit (Str.take 4 "TBA") = false.
Proof. repeat split; reflexivity. Qed.

(** ** The stable descending sort *)

Section StableSortFacts.

Context {K A : Type}.
Variable leb : K -> K -> bool.
Hypothesis leb_total : forall a b, leb a b = false -> leb b a = true.
Hypothesis leb_trans :
  forall a b c, leb a b = true -> leb b c = true -> leb a c = true.

Lemma insert_desc_perm (x : K * A) l :
  Permutation (x :: l) (insert_desc leb x l).
Proof.
  induction l as [|y l IH]; simpl; [reflexivity|].
  destruct (leb (fst y) (fst x)); [reflexivity|].
  rewrite perm_swap. now constructor.
Qed.

Lemma sort_desc_perm (l : list (K * A)) : Permutation l (sort_desc leb l).
Proof.
  induction l as [|x l IH]; simpl; [constructor|].
  rewrite <- insert_desc_perm. now constructor.
Qed.

Lemma sort_desc_length (l : list (K * A)) :
  List.length (sort_desc leb l) = List.length l.
Proof. symmetry. apply Permutation_length, sort_desc_perm. Qed.

Lemma insert_desc_sorted (x : K * A) l :
  StronglySorted (desc leb) l -> StronglySorted (desc leb) (insert_desc leb x l).
Proof.
  induction 1 as [|y l Hl IH Hy]; simpl.
  - repeat constructor.
  - destruct (leb (fst y) (fst x)) eqn:E.
    + constructor; [now constructor|].
      constructor; [exact E|].
      rewrite Forall_forall in *. intros z Hz.
      unfold desc in *. eauto.
    + constructor; [exact IH|].
      rewrite Forall_forall in *. intros z Hz.
      apply Permutation_in with (l' := x :: l) in Hz;
        [|symmetry; apply insert_desc_perm].
      destruct Hz as [<-|Hz]; [apply leb_total, E | auto].
Qed.

Lemma sort_desc_sorted (l : list (K * A)) :
  StronglySorted (desc leb) (sort_desc leb l).
Proof.
  induction l; simpl; [constructor | now apply insert_desc_sorted].
Qed.

(** The first item of the sorted list is the first item of the input
    among those with a greatest key. *)
Lemma sort_desc_head (l : list (K * A)) :
  l <> [] ->
  exists pre x post,
    l = pre ++ x :: post
    /\ hd_error (sort_desc leb l) = Some x
    /\ (forall y, In y pre -> leb (fst x) (fst y) = false)
    /\ (forall y, In y post -> leb (fst y) (fst x) = true).
Proof.
  induction l as [|a l IH]; [congruence|intros _].
  destruct l as [|b l].
  - exists [], a, []. simpl. repeat split; intros ? [].
  - destruct IH as (pre & x & post & El & Hhd & Hpre & Hpost); [congruence|].
    change (sort_desc leb (a :: b :: l))
      with (insert_desc leb a (sort_desc leb (b :: l))).
    destruct (sort_desc leb (b :: l)) as [|x' s] eqn:Es; [discriminate|].
    simpl in Hhd. injection Hhd as ->. simpl.
    destruct (leb (fst x) (fst a)) eqn:E.
    + exists [], a, (b :: l).
      split; [reflexivity|]. split; [reflexivity|]. split; [intros ? []|].
      intros y Hy. rewrite El in Hy. apply in_app_or in Hy.
      destruct Hy as [Hy|[<-|Hy]]; eauto.
    + exists (a :: pre), x, post. rewrite El.
      split; [reflexivity|]. split; [reflexivity|]. split; [|exact Hpost].
      intros y [<-|Hy]; auto.
Qed.

(** Items with equivalent keys keep the order of the input. *)
Lemma insert_desc_stable k (x : K * A) l :
  filter (same_key leb k) (insert_desc leb x l) = filter (same_key leb k) (x :: l).
Proof.
  induction l as [|y l IH]; [reflexivity|].
  simpl insert_desc. destruct (leb (fst y) (fst x)) eqn:E; [reflexivity|].
  simpl in *. rewrite IH.
  destruct (same_key leb k x) eqn:Ex; [|reflexivity].
  destruct (same_key leb k y) eqn:Ey; [|reflexivity].
  unfold same_key in *.
  apply andb_prop in Ex as [_ Ex], Ey as [Ey _].
  rewrite (leb_trans _ _ _ Ey Ex) in E. discriminate.
Qed.

Lemma sort_desc_stable k (l : list (K * A)) :
  filter (same_key leb k) (sort_desc leb l) = filter (same_key leb k) l.
Proof.
  induction l as [|x l IH]; [reflexivity|].
  simpl sort_desc. rewrite insert_desc_stable. simpl. now rewrite IH.
Qed.

End StableSortFacts.

(** ** The two orders the code sorts by *)

Lemma Qle_bool_total (a b : Q) : Qle_bool a b = false -> Qle_bool b a = true.
Proof.
  intros H. apply Qle_bool_iff, Qlt_le_weak, Qnot_le_lt.
  intros Hle. apply Qle_bool_iff in Hle. congruence.
Qed.

Lemma Qle_bool_trans (a b c : Q) :
  Qle_bool a b = true -> Qle_bool b c = true -> Qle_bool a c = true.
Proof. rewrite !Qle_bool_iff. apply Qle_trans. Qed.

Lemma string_leb_total (a b : string) :
  String.leb a b = false -> String.leb b a = true.
Proof. destruct (String.leb_total a b); congruence. Qed.

Lemma string_leb_trans (a b c : string) :
  String.leb a b = true -> String.leb b c = true -> String.leb a c = true.
Proof.
  assert (Hlt : forall x y, String.leb x y = true <-> x = y \/ String_as_OT.lt x y).
  { intros x y. unfold String.leb.
    destruct (String.compare x y) eqn:E.
    - apply String.compare_eq_iff in E. tauto.
    - apply String_as_OT.cmp_lt in E. tauto.
    - split; [discriminate|]. intros [->|H].
      + assert (String.compare y y = Eq) by now apply String_as_OT.cmp_eq.
        congruence.
      + apply String_as_OT.cmp_lt in H. unfold String_as_OT.cmp in H.
        congruence. }
  rewrite !Hlt. intros [->|H1] [->|H2]; auto.
  right. eapply String_as_OT.lt_trans; eassumption.
Qed.

Lemma string_leb_refl (a : string) : String.leb a a = true.
Proof. destruct (String.leb_total a a); assumption. Qed.

(** ** Decorating the items with their keys *)

Lemma res_map_length {A B} (f : A -> res B) l ys :
  res_map f l = Ok ys -> List.length ys = List.length l.
Proof.
  revert ys. induction l as [|x l IH]; simpl; intros ys H.
  - now injection H as <-.
  - destruct (f x); [|discriminate]. simpl in H.
    destruct (res_map f l); [|discriminate]. simpl in H.
    injection H as <-. simpl. f_equal. now apply IH.
Qed.

Lemma map_snd_combine {A B} (xs : list A) (ys : list B) :
  List.length xs = List.length ys -> map snd (combine xs ys) = ys.
Proof.
  revert ys. induction xs as [|x xs IH]; destruct ys; simpl; try discriminate;
    intros H; [reflexivity|]. f_equal. apply IH. now injection H.
Qed.

Lemma all_nums_combine (f : json -> res json) items keys qs :
  res_map f items = Ok keys ->
  all_nums keys = Some qs ->
  List.length qs = List.length items
  /\ forall q x, In (q, x) (combine qs items) ->
       exists k, f x = Ok k /\ Py.num_of k = Some q.
Proof.
  revert keys qs. induction items as [|x items IH]; simpl; intros keys qs Hm Hn.
  - injection Hm as <-. simpl in Hn. injection Hn as <-. split; [reflexivity|].
    intros ? ? [].
  - destruct (f x) as [k|] eqn:Ek; [|discriminate]. simpl in Hm.
    destruct (res_map f items) as [ks|]; [|discriminate]. simpl in Hm.
    injection Hm as <-. simpl in Hn.
    destruct (Py.num_of k) as [q0|] eqn:Eq; [|discriminate].
    destruct (all_nums ks) as [qs0|] eqn:En; [|discriminate].
    injection Hn as <-.
    destruct (IH ks qs0 eq_refl En) as [Hlen Hin].
    split; [simpl; now f_equal|].
    intros q y [Hy|Hy]; [injection Hy as <- <-; eauto | auto].
Qed.

Lemma all_strs_combine (f : json -> res json) items keys ss :
  res_map f items = Ok keys ->
  all_strs keys = Some ss ->
  List.length ss = List.length items
  /\ forall s x, In (s, x) (combine ss items) -> f x = Ok (JStr s).
Proof.
  revert keys ss. induction items as [|x items IH]; simpl; intros keys ss Hm Hn.
  - injection Hm as <-. simpl in Hn. injection Hn as <-. split; [reflexivity|].
    intros ? ? [].
  - destruct (f x) as [k|] eqn:Ek; [|discriminate]. simpl in Hm.
    destruct (res_map f items) as [ks|]; [|discriminate]. simpl in Hm.
    injection Hm as <-. simpl in Hn.
    destruct k as [| | |s| |]; try discriminate.
    destruct (all_strs ks) as [ss0|] eqn:En; [|discriminate].
    simpl in Hn. injection Hn as <-.
    destruct (IH ks ss0 eq_refl En) as [Hlen Hin].
    split; [simpl; now f_equal|].
    intros s' y [Hy|Hy]; [injection Hy as <- <-; eauto | auto].
Qed.

(** Keys that are all numbers are recognised as such. *)
Lemma all_nums_complete (f : json -> res json) items :
  (forall x, In x items -> exists k q, f x = Ok k /\ Py.num_of k = Some q) ->
  exists keys qs, res_map f items = Ok keys /\ all_nums keys = Some qs.
Proof.
  induction items as [|x items IH]; intros H; simpl.
  - exists [], []. auto.
  - destruct (H x) as (k & q & -> & Hq); [now left|].
    destruct IH as (keys & qs & -> & Hqs); [intros; apply H; now right|].
    exists (k :: keys), (q :: qs). simpl. now rewrite Hq, Hqs.
Qed.

Lemma all_strs_complete (f : json -> res json) items :
  (forall x, In x items -> exists s, f x = Ok (JStr s)) ->
  exists keys ss, res_map f items = Ok keys /\ all_strs keys = Some ss.
Proof.
  induction items as [|x items IH]; intros H; simpl.
  - exists [], []. auto.
  - destruct (H x) as (s & ->); [now left|].
    destruct IH as (keys & ss & -> & Hss); [intros; apply H; now right|].
    exists (JStr s :: keys), (s :: ss). simpl. now rewrite Hss.
Qed.

(** A list of strings is not a list of numbers, unless it is empty. *)
Lemma all_strs_not_nums keys ss :
  all_strs keys = Some ss -> keys <> [] -> all_nums keys = None.
Proof.
  destruct keys as [|[| | |s| |] keys]; simpl; try discriminate; congruence.
Qed.

Lemma sort_desc_short {K A} (leb : K -> K -> bool) (l : list (K * A)) :
  (List.length l <= 1)%nat -> sort_desc leb l = l.
Proof.
  destruct l as [|x [|y l]]; simpl; try reflexivity. intros H.
  exfalso. apply (Nat.nle_succ_0 _ (proj2 (Nat.succ_le_mono _ _) H)).
Qed.

(** [sorted] over numeric keys. *)
Lemma sorted_desc_nums k default items :
  (forall x, In x items ->
     exists j q, Py.get x k default = Ok j /\ Py.num_of j = Some q) ->
  exists qs,
    List.length qs = List.length items
    /\ (forall q x, In (q, x) (combine qs items) ->
          exists j, Py.get x k default = Ok j /\ Py.num_of j = Some q)
    /\ sorted_desc k default (JArr items)
       = Ok (map snd (sort_desc Qle_bool (combine qs items))).
Proof.
  intros H.
  destruct (all_nums_complete _ _ H) as (keys & qs & Hm & Hn).
  destruct (all_nums_combine _ _ _ _ Hm Hn) as [Hlen Hin].
  exists qs. split; [exact Hlen|]. split; [exact Hin|].
  unfold sorted_desc. simpl. rewrite Hm. simpl. rewrite Hn.
  destruct items as [|a [|b items]]; try reflexivity;
    rewrite sort_desc_short, map_snd_combine; auto;
    rewrite length_combine, Hlen, Nat.min_id; simpl; auto.
Qed.

(** [sorted] over string keys. *)
Lemma sorted_desc_strs k default items :
  (forall x, In x items -> exists s, Py.get x k default = Ok (JStr s)) ->
  exists ss,
    List.length ss = List.length items
    /\ (forall s x, In (s, x) (combine ss items) ->
          Py.get x k default = Ok (JStr s))
    /\ sorted_desc k default (JArr items)
       = Ok (map snd (sort_desc String.leb (combine ss items))).
Proof.
  intros H.
  destruct (all_strs_complete _ _ H) as (keys & ss & Hm & Hn).
  destruct (all_strs_combine _ _ _ _ Hm Hn) as [Hlen Hin].
  exists ss. split; [exact Hlen|]. split; [exact Hin|].
  unfold sorted_desc. simpl. rewrite Hm. simpl.
  destruct items as [|a [|b items]];
    try (rewrite sort_desc_short, map_snd_combine; auto;
         rewrite length_combine, Hlen, Nat.min_id; simpl; auto).
  rewrite (all_strs_not_nums _ _ Hn), Hn; [reflexivity|].
  apply res_map_length in Hm. destruct keys; [discriminate|congruence].
Qed.

(** Whatever [sorted] returns is a rearrangement of the items. *)
Lemma sorted_desc_perm k default xs items visited :
  Py.iter xs = Ok items ->
  sorted_desc k default xs = Ok visited ->
  Permutation items visited.
Proof.
  unfold sorted_desc. intros -> H. simpl in H.
  destruct (res_map _ items) as [keys|] eqn:Hm; [|discriminate]. simpl in H.
  assert (Hdec : forall {K} (leb : K -> K -> bool) (ks : list K),
             List.length ks = List.length items ->
             Permutation items (map snd (sort_desc leb (combine ks items)))).
  { intros K leb ks Hlen.
    rewrite <- (map_snd_combine ks items Hlen) at 1.
    apply Permutation_map, sort_desc_perm. }
  destruct items as [|a [|b items]];
    try (injection H as <-; reflexivity).
  destruct (all_nums keys) as [qs|] eqn:Hn.
  - injection H as <-. apply Hdec.
    eapply all_nums_combine; eassumption.
  - destruct (all_strs keys) as [ss|] eqn:Hs.
    + injection H as <-. apply Hdec.
      eapply all_strs_combine; eassumption.
    + destruct (forallb is_arr keys); discriminate.
Qed.

(* ================================================================= *)
(** ** The title search: the most popular result, the first of them *)

Lemma popularity_some x q :
  popularity x = Some q <->
  exists j, Py.get x "popularity" (JNum 0) = Ok j /\ Py.num_of j = Some q.
Proof.
  unfold popularity. split.
  - destruct (Py.get x "popularity" (JNum 0)) as [j|]; [eauto|discriminate].
  - now intros (j & -> & ->).
Qed.

(** C8.  For a non-empty list of search results whose popularity is a
    number (or absent, then 0), the best match is the result with the
    greatest popularity; of several with the greatest popularity it is the
    first in upstream order: every result before it is strictly less
    popular, every result after it at most as popular. *)
Theorem best_match_most_popular_first (results : list json) :
  results <> [] ->
  (forall x, In x results -> popularity x <> None) ->
  exists pre best post q,
    results = pre ++ best :: post
    /\ best_match (JArr results) = Ok best
    /\ popularity best = Some q
    /\ (forall y p, In y pre -> popularity y = Some p -> p < q)
    /\ (forall y p, In y post -> popularity y = Some p -> p <= q).
Proof.
  intros Hne Hpop.
  destruct (sorted_desc_nums "popularity" (JNum 0) results)
    as (qs & Hlen & Hin & Hs).
  { intros x Hx. specialize (Hpop x Hx).
    destruct (popularity x) as [q|] eqn:E; [|congruence].
    apply popularity_some in E as (j & ? & ?). eauto. }
  assert (Hkey : forall p, In p (combine qs results) ->
                           popularity (snd p) = Some (fst p)).
  { intros [q y] Hp. apply popularity_some. now apply Hin. }
  destruct (sort_desc_head Qle_bool Qle_bool_total Qle_bool_trans
              (combine qs results))
    as (pre & x & post & El & Hhd & Hpre & Hpost).
  { destruct qs, results; simpl in *; congruence. }
  assert (Hx : In x (combine qs results))
    by (rewrite El; apply in_elt).
  exists (map snd pre), (snd x), (map snd post), (fst x).
  split; [|split; [|split; [|split]]].
  - rewrite <- (map_snd_combine qs results Hlen) at 1.
    now rewrite El, map_app.
  - unfold best_match. rewrite Hs. simpl.
    destruct (sort_desc Qle_bool (combine qs results)); [discriminate|].
    simpl in *. congruence.
  - now apply Hkey.
  - intros y p Hy Ep. apply in_map_iff in Hy as (d & <- & Hd).
    rewrite Hkey in Ep by (rewrite El; apply in_or_app; now left).
    injection Ep as <-. apply Qnot_le_lt. intros Hle.
    apply Qle_bool_iff in Hle. rewrite (Hpre d Hd) in Hle. discriminate.
  - intros y p Hy Ep. apply in_map_iff in Hy as (d & <- & Hd).
    rewrite Hkey in Ep by (rewrite El; apply in_or_app; right; now right).
    injection Ep as <-. apply Qle_bool_iff. now apply Hpost.
Qed.

(** C8 at the search results of the "Inception" scenario: the second
    result, the more popular one, is chosen. *)
Lemma best_match_most_popular_first_witness :
  exists pre best post q,
    [Scenario.hit 64956 (32 # 10) "/cameo.jpg";
     Scenario.hit 27205 (805 # 10) "/inception.jpg";
     Scenario.hit 1 (805 # 10) "/tie.jpg"]
    = pre ++ best :: post
    /\ best_match
         (JArr [Scenario.hit 64956 (32 # 10) "/cameo.jpg";
                Scenario.hit 27205 (805 # 10) "/inception.jpg";
                Scenario.hit 1 (805 # 10) "/tie.jpg"])
       = Ok best
    /\ popularity best = Some q
    /\ (forall y p, In y pre -> popularity y = Some p -> p < q)
    /\ (forall y p, In y post -> popularity y = Some p -> p <= q).
Proof.
  apply best_match_most_popular_first.
  - discriminate.
  - intros x [<-|[<-|[<-|[]]]]; vm_compute; discriminate.
Defined.

Example best_match_tie :
  best_match
    (JArr [Scenario.hit 64956 (32 # 10) "/cameo.jpg";
           Scenario.hit 27205 (805 # 10) "/inception.jpg";
           Scenario.hit 1 (805 # 10) "/tie.jpg"])
  = Ok (Scenario.hit 27205 (805 # 10) "/inception.jpg").
Proof. reflexivity. Qed.

(* ================================================================= *)
(** ** The second stage: the order of the visit *)

Lemma StronglySorted_map {A B} (R : A -> A -> Prop) (R' : B -> B -> Prop)
  (f : A -> B) (l : list A) :
  (forall a b, In a l -> In b l -> R a b -> R' (f a) (f b)) ->
  StronglySorted R l -> StronglySorted R' (map f l).
Proof.
  intros HR Hs. induction Hs as [|a l Hs IH Ha]; simpl; constructor.
  - apply IH. intros; apply HR; simpl; auto.
  - rewrite Forall_forall in *. intros y Hy.
    apply in_map_iff in Hy as (b & <- & Hb).
    apply HR; simpl; auto.
Qed.

Lemma string_same_key (s : string) {A} (p : string * A) :
  same_key String.leb s p = (fst p =? s)%string.
Proof.
  unfold same_key. destruct (String.eqb_spec (fst p) s) as [->|Hne].
  - now rewrite string_leb_refl.
  - destruct (String.leb (fst p) s) eqn:E1, (String.leb s (fst p)) eqn:E2;
      try reflexivity.
    exfalso. apply Hne. now apply String.leb_antisym.
Qed.

Lemma release_key_some x s :
  release_key x = Some s <-> Py.get x "release_date" (JStr "1900") = Ok (JStr s).
Proof.
  unfold release_key. split.
  - destruct (Py.get x "release_date" (JStr "1900")) as [[]|];
      congruence.
  - now intros ->.
Qed.

(** C5, amended.  When every candidate's release date is a string or
    absent, the second stage visits the candidates in descending order of
    the key [x.get("release_date", "1900")]: the raw string when the field
    is there, the empty string too, and "1900" only when the field is
    absent.  The visit is a rearrangement of the candidates, and candidates
    with the same key are visited in upstream order. *)
Theorem sorted_similars_descending (similar : list json) :
  (forall x, In x similar -> release_key x <> None) ->
  exists visited,
    sorted_similars (JArr similar) = Ok visited
    /\ Permutation similar visited
    /\ StronglySorted not_older visited
    /\ (forall s, filter (keyed s) visited = filter (keyed s) similar).
Proof.
  intros Hkeys.
  destruct (sorted_desc_strs "release_date" (JStr "1900") similar)
    as (ss & Hlen & Hin & Hs).
  { intros x Hx. specialize (Hkeys x Hx).
    destruct (release_key x) as [s|] eqn:E; [|congruence].
    apply release_key_some in E. eauto. }
  set (l := combine ss similar) in *.
  assert (Hkey : forall p, In p (sort_desc String.leb l) ->
                           release_key (snd p) = Some (fst p)).
  { intros [s x] Hp. apply release_key_some, Hin.
    eapply Permutation_in; [symmetry; apply sort_desc_perm|exact Hp]. }
  exists (map snd (sort_desc String.leb l)).
  split; [exact Hs|]. split; [|split].
  - rewrite <- (map_snd_combine ss similar Hlen) at 1.
    apply Permutation_map, sort_desc_perm.
  - apply StronglySorted_map with (R := desc String.leb).
    + intros a b Ha Hb Hab. exists (fst a), (fst b). auto.
    + apply sort_desc_sorted; [apply string_leb_total|apply string_leb_trans].
  - intros s.
    replace (filter (keyed s) similar) with (filter (keyed s) (map snd l))
      by (unfold l; now rewrite map_snd_combine).
    rewrite !filter_map_swap. f_equal.
    transitivity (filter (same_key String.leb s) (sort_desc String.leb l)).
    + apply filter_ext_in. intros p Hp. rewrite string_same_key.
      unfold keyed. now rewrite (Hkey p Hp).
    + rewrite sort_desc_stable by apply string_leb_trans.
      symmetry. apply filter_ext_in. intros [t x] Hp.
      rewrite string_same_key. unfold keyed. simpl.
      now rewrite (proj2 (release_key_some x t) (Hin _ _ Hp)).
Qed.

(** C5 as worded fails: with an empty release date the candidate is
    sorted by the empty string, not by "1900", so a candidate of 1899 is
    visited before it; and a candidate without the field is sorted by
    "1900", which puts it before a candidate of 1899, not last. *)
Lemma sorted_similars_not_spec_order :
  sorted_similars (JArr [Scenario.lost_reel; Scenario.cinderella])
  = Ok [Scenario.cinderella; Scenario.lost_reel]
  /\ ~ StronglySorted spec_not_older
         [Scenario.cinderella; Scenario.lost_reel]
  /\ sorted_similars (JArr [Scenario.untitled; Scenario.cinderella])
     = Ok [Scenario.untitled; Scenario.cinderella].
Proof.
  split; [reflexivity|]. split; [|reflexivity].
  intros H. apply StronglySorted_inv in H as [_ H].
  apply Forall_inv in H. vm_compute in H. discriminate.
Qed.

Lemma sorted_similars_descending_witness :
  exists visited,
    sorted_similars
      (JArr [Scenario.lost_reel; Scenario.cinderella; Scenario.untitled;
             Scenario.interstellar]) = Ok visited
    /\ Permutation
         [Scenario.lost_reel; Scenario.cinderella; Scenario.untitled;
          Scenario.interstellar] visited
    /\ StronglySorted not_older visited
    /\ (forall s,
          filter (keyed s) visited
          = filter (keyed s)
              [Scenario.lost_reel; Scenario.cinderella; Scenario.untitled;
               Scenario.interstellar]).
Proof.
  apply sorted_similars_descending.
  intros x [<-|[<-|[<-|[<-|[]]]]]; vm_compute; discriminate.
Defined.

Example sorted_similars_ex :
  sorted_similars
    (JArr [Scenario.lost_reel; Scenario.cinderella; Scenario.untitled;
           Scenario.interstellar])
  = Ok [Scenario.interstellar; Scenario.untitled; Scenario.cinderella;
        Scenario.lost_reel].
Proof. reflexivity. Qed.

(* ================================================================= *)
(** ** Running the service *)

Section Run.

Context {World : Type}.

Lemma bind_ok {A B} (m : M World A) (k : A -> M World B) w b w' :
  bind m k w = (Ok b, w') ->
  exists a w1, m w = (Ok a, w1) /\ k a w1 = (Ok b, w').
Proof.
  unfold bind. destruct (m w) as [[a|e] w1]; [eauto|discriminate].
Qed.

Lemma bind_intro {A B} (m : M World A) (k : A -> M World B) w a w1 :
  m w = (Ok a, w1) -> bind m k w = k a w1.
Proof. unfold bind. now intros ->. Qed.

Lemma bind_raise {A B} (m : M World A) (k : A -> M World B) w e w1 :
  m w = (Raise e, w1) -> bind m k w = (Raise e, w1).
Proof. unfold bind. now intros ->. Qed.

Lemma lift_ok {A} (r : res A) (w : World) a w' :
  lift r w = (Ok a, w') -> r = Ok a /\ w' = w.
Proof. unfold lift. now intros [= -> ->]. Qed.

Lemma ret_ok {A} (a : A) (w : World) b w' :
  ret a w = (Ok b, w') -> b = a /\ w' = w.
Proof. unfold ret. now intros [= -> ->]. Qed.

End Run.

(** One step of a run that succeeded: the first computation of a [bind]
    succeeded, in hypothesis [H] and, when the goal runs the same
    computation, in the goal. *)
Tactic Notation "step" hyp(H) "as" ident(a) ident(w) ident(E) :=
  apply bind_ok in H as (a & w & E & H);
  try (erewrite bind_intro by exact E; cbv beta).

Ltac lifted E := apply lift_ok in E as [E ->].
Ltac returned E := apply ret_ok in E as [-> ->].

(* ================================================================= *)
(** ** The title resolution *)

Section Resolution.

Context {World : Type}.
Variable http : World -> request -> option json * World.
Variable render : json -> string.
Variable str_lower : string -> string.
Variable str_title : string -> string.

(** C7.  When the initial search answers with an empty result list,
    [recommend] returns the single entry "Movie not found" with the
    "Not Found" placeholder poster and the empty justification, paired
    with the title-cased input [movie_title.title()], whatever Python's
    [str.title] is ([str_title]). *)
Theorem recommend_no_results (movie_title : string) w response w1 :
  http w (SearchMovie movie_title) = (Some response, w1) ->
  Py.subscript response "results" = Ok (JArr []) ->
  recommend http render str_lower str_title movie_title w
  = (Ok ([(JStr "Movie not found",
           "https://via.placeholder.com/300x450?text=Not+Found", "")],
         JStr (str_title movie_title)), w1).
Proof.
  intros Hsearch Hresults.
  unfold recommend, recommend_upto, fetch_movie_data_from_api.
  unfold bind, attempt, requests_get_json, lift.
  rewrite Hsearch, Hresults. reflexivity.
Qed.

(** The search itself failing gives the same answer. *)
Lemma recommend_search_failed (movie_title : string) w w1 :
  http w (SearchMovie movie_title) = (None, w1) ->
  recommend http render str_lower str_title movie_title w
  = (Ok (not_found str_title movie_title), w1).
Proof.
  intros Hsearch.
  unfold recommend, recommend_upto, fetch_movie_data_from_api.
  unfold bind, attempt, requests_get_json.
  rewrite Hsearch. reflexivity.
Qed.

(** C10.  When the search finds a best match but the request for its
    details fails, [recommend] returns the same "Movie not found" entry
    as for an empty search, paired with the title-cased input
    [movie_title.title()], whatever Python's [str.title] is
    ([str_title]). *)
Theorem recommend_details_failed (movie_title : string)
  w response w1 results best movie_id w2 :
  http w (SearchMovie movie_title) = (Some response, w1) ->
  Py.subscript response "results" = Ok results ->
  Py.truthy results = true ->
  best_match results = Ok best ->
  Py.subscript best "id" = Ok movie_id ->
  http w1 (MovieAppended movie_id) = (None, w2) ->
  recommend http render str_lower str_title movie_title w
  = (Ok ([(JStr "Movie not found",
           "https://via.placeholder.com/300x450?text=Not+Found", "")],
         JStr (str_title movie_title)), w2).
Proof.
  intros Hsearch Hresults Htruthy Hbest Hid Hdetails.
  unfold recommend, recommend_upto, fetch_movie_data_from_api.
  unfold bind, attempt, requests_get_json, lift.
  rewrite Hsearch, Hresults, Htruthy, Hbest, Hid, Hdetails. reflexivity.
Qed.

(* --------------------------------------------------------------- *)
(** *** The collection *)

Lemma isdigit_first_four (date : string) :
  Str.isdigit (Str.take 4 date) = first_four_digits date.
Proof.
  unfold first_four_digits, Str.isdigit.
  destruct (Str.take 4 date); reflexivity.
Qed.

Lemma has_year_member (item : json) :
  member item -> has_year item = Ok (has_release_year item).
Proof.
  intros [kv title date Ht Hd|kv title Ht Hd];
    unfold has_year, has_release_year, Py.contains, Py.subscript;
    rewrite Hd; [|reflexivity].
  unfold res_bind, Py.slice, Py.isdigit. now rewrite isdigit_first_four.
Qed.

Lemma titles_of_members (items : list json) :
  Forall member items ->
  res_filter_map has_year (fun item => Py.subscript item "title") items
  = Ok (map title_of (filter has_release_year items)).
Proof.
  induction 1 as [|item items Hm _ IH]; [reflexivity|].
  simpl. rewrite (has_year_member _ Hm). simpl.
  destruct (has_release_year item); simpl; rewrite IH; [|reflexivity].
  destruct Hm as [kv title date Ht Hd|kv title Ht Hd];
    simpl; now rewrite Ht.
Qed.

(** C9.  For a movie that belongs to a collection, whose members are
    objects with a title and a release date that is a string or absent,
    [fetch_movie_collection] returns the titles of exactly the members
    whose release date is present and starts with digits (its first
    four characters), in upstream order, and the collection's id. *)
Theorem fetch_movie_collection_titles (movie_id : json)
  w details w1 collection collection_id coll w2 parts :
  http w (Movie movie_id) = (Some details, w1) ->
  Py.get details "belongs_to_collection" JNull = Ok collection ->
  Py.truthy collection = true ->
  Py.get collection "id" JNull = Ok collection_id ->
  Py.truthy collection_id = true ->
  http w1 (Collection collection_id) = (Some coll, w2) ->
  Py.get coll "parts" (JArr []) = Ok (JArr parts) ->
  Forall member parts ->
  fetch_movie_collection http movie_id w
  = (Ok (map title_of (filter has_release_year parts), collection_id), w2).
Proof.
  intros Hd Hc Htc Hid Htid Hcoll Hparts Hmembers.
  unfold fetch_movie_collection.
  unfold bind, attempt, requests_get_json, lift.
  rewrite Hd, Hc, Htc, Hid, Htid, Hcoll, Hparts. simpl.
  now rewrite (titles_of_members _ Hmembers).
Qed.

End Resolution.

Lemma recommend_no_results_witness :
  recommend Scenario.http_nothing Scenario.render Str.lower Str.title
      "the lost reel" 0%nat
  = (Ok ([(JStr "Movie not found",
           "https://via.placeholder.com/300x450?text=Not+Found", "")],
         JStr (Str.title "the lost reel")), 1%nat).
Proof.
  apply (recommend_no_results Scenario.http_nothing Scenario.render
           Str.lower Str.title
           "the lost reel" 0%nat (JObj [("results", JArr [])]) 1%nat);
    reflexivity.
Defined.

Lemma recommend_details_failed_witness :
  recommend Scenario.http_search_only Scenario.render Str.lower Str.title
      "inception" 0%nat
  = (Ok ([(JStr "Movie not found",
           "https://via.placeholder.com/300x450?text=Not+Found", "")],
         JStr (Str.title "inception")), 2%nat).
Proof.
  apply (recommend_details_failed Scenario.http_search_only Scenario.render
           Str.lower Str.title
           "inception" 0%nat Scenario.search_inception 1%nat
           (JArr [Scenario.hit 64956 (32 # 10) "/cameo.jpg";
                  Scenario.hit 27205 (805 # 10) "/inception.jpg"])
           (Scenario.hit 27205 (805 # 10) "/inception.jpg")
           (Scenario.JInt 27205) 2%nat);
    reflexivity.
Defined.

Lemma fetch_movie_collection_titles_witness :
  fetch_movie_collection Scenario.http_saga (Scenario.JInt 1) 0%nat
  = (Ok ([JStr "Saga"; JStr "Saga Returns"; JStr "Saga Returns"],
         Scenario.JInt 10), 2%nat).
Proof.
  apply (fetch_movie_collection_titles Scenario.http_saga (Scenario.JInt 1)
           0%nat
           (JObj [("belongs_to_collection",
                   JObj [("id", Scenario.JInt 10); ("name", JStr "Saga")])])
           1%nat
           (JObj [("id", Scenario.JInt 10); ("name", JStr "Saga")])
           (Scenario.JInt 10) Scenario.saga 2%nat
           [Scenario.dated 1 "Saga" "1999-05-01";
            Scenario.dated 2 "Saga Returns" "2002-05-01";
            Scenario.dated 3 "Saga Forever" "";
            JObj [("id", Scenario.JInt 4); ("title", JStr "Saga: Origins")];
            Scenario.dated 5 "Saga Returns" "2019-05-01"]);
    try reflexivity.
  repeat constructor;
    solve [ eapply member_dated; reflexivity
          | eapply member_undated; reflexivity ].
Defined.

(* ================================================================= *)
(** ** The cascade *)

Section Cascade.

Context {World : Type}.
Variable http : World -> request -> option json * World.
Variable render : json -> string.
Variable str_lower : string -> string.
Variable str_title : string -> string.

Lemma attempt_some {A} (body : M World A) w a w' :
  attempt body w = (Ok (Some a), w') -> body w = (Ok a, w').
Proof.
  unfold attempt. destruct (body w) as [[x|[]] w1]; congruence.
Qed.

Lemma accept_ok title source st w st' w' :
  accept http render title source st w = (Ok st', w') ->
  exists poster, fst st' = fst st ++ [(title, poster, source)].
Proof.
  unfold accept. intros H.
  step H as poster w1 E1. step H as used w2 E2. returned H.
  simpl. eauto.
Qed.

Lemma extends_refl limit P l : extends limit P l l.
Proof.
  exists []. rewrite app_nil_r. repeat split; [constructor|lia].
Qed.

Lemma extends_one limit P l r :
  P r -> extends limit P l (l ++ [r]).
Proof.
  intros Hr. exists [r]. repeat split; [now repeat constructor|].
  rewrite length_app. simpl. lia.
Qed.

Lemma extends_trans limit P l1 l2 l3 :
  extends limit P l1 l2 ->
  ((List.length l2 < limit)%nat -> extends limit P l2 l3) ->
  ((limit <= List.length l2)%nat -> l3 = l2) ->
  extends limit P l1 l3.
Proof.
  intros (a1 & -> & H1 & L1) H23 Hstop.
  destruct (Nat.lt_ge_cases (List.length (l1 ++ a1)) limit) as [Hlt|Hge].
  - destruct (H23 Hlt) as (a2 & -> & H2 & L2).
    exists (a1 ++ a2). rewrite app_assoc. repeat split.
    + apply Forall_app. now split.
    + intros _. now apply L2.
  - rewrite (Hstop Hge). exists a1. repeat split; assumption.
Qed.

Lemma extends_impl limit (P Q : recommendation -> Prop) l1 l2 :
  (forall r, P r -> Q r) -> extends limit P l1 l2 -> extends limit Q l1 l2.
Proof.
  intros HPQ (a & -> & H & L). exists a. repeat split; [|exact L].
  eapply Forall_impl; eassumption.
Qed.

(** The first stage adds entries "From the same series/collection". *)
Lemma stage1_ok limit movie_info sequels : forall st w st' w',
  stage1 http render str_lower limit movie_info sequels st w = (Ok st', w') ->
  extends limit (fun r => rec_source r = from_collection) (fst st) (fst st').
Proof.
  induction sequels as [|title rest IH]; intros st w st' w' H;
    cbn [stage1] in H.
  - returned H. apply extends_refl.
  - step H as lowered w1 E1. step H as own w2 E2.
    step H as own_lowered w3 E3. step H as st1 w4 E4.
    apply extends_trans with (l2 := fst st1).
    + destruct (negb (lowered =? own_lowered)%string).
      * apply accept_ok in E4 as [poster ->]. now apply extends_one.
      * returned E4. apply extends_refl.
    + intros Hlt. apply Nat.leb_gt in Hlt. rewrite Hlt in H. eauto.
    + intros Hge. apply Nat.leb_le in Hge. rewrite Hge in H.
      now returned H.
Qed.


(** The second stage adds entries "Similar movie based on genre and
    recency", each for an eligible candidate. *)
Lemma stage2_ok limit original_genres original_year candidates :
  forall st w st' w',
    stage2 http render limit original_genres original_year candidates st w
    = (Ok st', w') ->
    extends limit
      (fun r => rec_source r = from_similar
                /\ exists movie,
                     In movie candidates
                     /\ eligible http original_genres original_year
                          (rec_title r) movie)
      (fst st) (fst st').
Proof.
  induction candidates as [|movie rest IH]; intros st w st' w' H;
    cbn [stage2] in H.
  - returned H. apply extends_refl.
  - assert (Hrest : forall st0 w0,
               stage2 http render limit original_genres original_year
                 rest st0 w0 = (Ok st', w') ->
               extends limit
                 (fun r => rec_source r = from_similar
                           /\ exists m,
                                In m (movie :: rest)
                                /\ eligible http original_genres
                                     original_year (rec_title r) m)
                 (fst st0) (fst st')).
    { intros st0 w0 H0. eapply extends_impl; [|eapply IH, H0].
      intros r (Hs & m & Hm & He). split; [exact Hs|].
      exists m. split; [now right|exact He]. }
    step H as title w1 E1. lifted E1.
    step H as release_date w2 E2. lifted E2.
    step H as skip w3 E3.
    destruct skip; [eauto|].
    step H as prefix w4 E4. lifted E4.
    step H as year w5 E5. lifted E5.
    destruct (year <? original_year - 2)%Z eqn:Eyear; [eauto|].
    step H as movie_id w6 E6. lifted E6.
    step H as g w7 E7.
    destruct g as [movie_genres|]; [|eauto].
    apply attempt_some in E7.
    destruct (negb (Py.intersects original_genres movie_genres)) eqn:Eg;
      [eauto|].
    step H as st1 w8 E8.
    apply extends_trans with (l2 := fst st1).
    + apply accept_ok in E8 as [poster ->]. apply extends_one.
      split; [reflexivity|]. exists movie. split; [now left|].
      exists release_date, prefix, year, movie_id, movie_genres, w3, w7.
      apply Z.ltb_ge in Eyear. apply negb_false_iff in Eg.
      repeat split; assumption.
    + intros Hlt. apply Nat.leb_gt in Hlt. rewrite Hlt in H. eauto.
    + intros Hge. apply Nat.leb_le in Hge. rewrite Hge in H.
      now returned H.
Qed.

(** The third stage adds entries "Genre-based fallback
    recommendation". *)
Lemma stage3_ok limit results : forall st w st' w',
  stage3 http render limit results st w = (Ok st', w') ->
  extends limit (fun r => rec_source r = from_fallback) (fst st) (fst st').
Proof.
  induction results as [|movie rest IH]; intros st w st' w' H;
    cbn [stage3] in H.
  - returned H. apply extends_refl.
  - step H as title w1 E1. step H as fresh w2 E2. step H as st1 w3 E3.
    apply extends_trans with (l2 := fst st1).
    + destruct fresh.
      * apply accept_ok in E3 as [poster ->]. now apply extends_one.
      * returned E3. apply extends_refl.
    + intros Hlt. apply Nat.leb_gt in Hlt. rewrite Hlt in H. eauto.
    + intros Hge. apply Nat.leb_le in Hge. rewrite Hge in H.
      now returned H.
Qed.

Lemma fallback_ok limit original_genres original_year st w st' w' :
  fallback http render str_lower limit original_genres original_year st w
  = (Ok st', w') ->
  extends limit (fun r => rec_source r = from_fallback) (fst st) (fst st').
Proof.
  unfold fallback. intros H.
  step H as genre_data w1 E1. step H as genre_ids w2 E2.
  destruct genre_ids as [|id ids].
  - returned H. apply extends_refl.
  - step H as fallback_resp w3 E3. step H as results w4 E4.
    step H as movies w5 E5. eapply stage3_ok, H.
Qed.


Lemma sorted_desc_iter k default xs visited :
  sorted_desc k default xs = Ok visited ->
  exists items, Py.iter xs = Ok items /\ Permutation items visited.
Proof.
  intros H. destruct (Py.iter xs) as [items|] eqn:E.
  - exists items. split; [reflexivity|].
    eapply sorted_desc_perm; eassumption.
  - unfold sorted_desc in H. rewrite E in H. discriminate.
Qed.

(** The two outcomes of a request that returns. *)
Lemma recommend_upto_ok limit movie_title w recs info w' :
  recommend_upto http render str_lower str_title limit movie_title w
  = (Ok (recs, info), w') ->
  (recs, info) = not_found str_title movie_title
  \/ extends limit (origin http info) [] recs.
Proof.
  unfold recommend_upto. intros H.
  step H as found w1 E1. destruct found as [movie_info movie_id].
  destruct (negb (Py.truthy movie_info)).
  { apply ret_ok in H as [H ->]. now left. }
  right.
  step H as original_genres w2 E2. lifted E2.
  step H as original_year w3 E3. lifted E3.
  step H as coll w4 E4. destruct coll as [sequels collection_id].
  step H as st1 w5 E5. step H as st2 w6 E6. step H as st3 w7 E7.
  apply ret_ok in H as [[= -> ->] ->].
  apply stage1_ok in E5. simpl in E5.
  apply extends_trans with (l2 := fst st2);
    [apply extends_trans with (l2 := fst st1)|..].
  - eapply extends_impl; [|exact E5]. intros r Hr. now left.
  - intros Hlt. apply Nat.ltb_lt in Hlt. rewrite Hlt in E6.
    step E6 as similar w8 E8. lifted E8.
    step E6 as candidates w9 E9. lifted E9.
    apply stage2_ok in E6.
    apply sorted_desc_iter in E9 as (items & Hitems & Hperm).
    eapply extends_impl; [|exact E6].
    intros r (Hs & movie & Hm & He). right. right. split; [exact Hs|].
    exists original_genres, original_year, similar, items, movie.
    repeat split; try assumption.
    eapply Permutation_in; [symmetry; exact Hperm|exact Hm].
  - intros Hge. apply Nat.ltb_ge in Hge. rewrite Hge in E6.
    now returned E6.
  - intros Hlt. apply Nat.ltb_lt in Hlt. rewrite Hlt in E7.
    apply fallback_ok in E7.
    eapply extends_impl; [|exact E7]. intros r Hr. right. now left.
  - intros Hge. apply Nat.ltb_ge in Hge. rewrite Hge in E7.
    now returned E7.
Qed.

(** C6.  Every entry of the returned list that the second stage
    justified ("Similar movie based on genre and recency") carries the
    title of a similar candidate whose release year is not less than
    the movie's year minus 2 and whose fetched genre set meets the
    movie's genre set. *)
Theorem stage2_entries_recent_and_related movie_title w recs info w' :
  recommend http render str_lower str_title movie_title w
  = (Ok (recs, info), w') ->
  forall r, In r recs -> rec_source r = from_similar ->
  exists original_genres original_year similar candidates movie,
    original_genres_of info = Ok original_genres
    /\ original_year_of info = Ok original_year
    /\ Py.subscript info "similar" = Ok similar
    /\ Py.iter similar = Ok candidates
    /\ In movie candidates
    /\ eligible http original_genres original_year (rec_title r) movie.
Proof.
  intros H r Hr Hs. apply recommend_upto_ok in H as [H|H].
  - injection H as -> ->. destruct Hr as [<-|[]]. discriminate Hs.
  - destruct H as (added & -> & Hadded & _). simpl in Hr.
    rewrite Forall_forall in Hadded.
    destruct (Hadded r Hr) as [Hc|[Hf|[_ He]]]; [| |exact He].
    + rewrite Hs in Hc. discriminate Hc.
    + rewrite Hs in Hf. discriminate Hf.
Qed.


(* --------------------------------------------------------------- *)
(** *** A run that stays below the limit never used it *)

Section Limit.

Variables limit limit' : nat.
Hypothesis limit_le : (limit <= limit')%nat.







End Limit.


(* --------------------------------------------------------------- *)
(** *** Lookups that fail *)

(** A poster lookup that fails gives the "Error" placeholder. *)
Lemma fetch_poster_failed (title : string) w w1 :
  http w (SearchMovie title) = (None, w1) ->
  fetch_poster http render (JStr title) w = (Ok poster_error, w1).
Proof.
  intros H. unfold fetch_poster, bind, lift, attempt, requests_get_json.
  simpl. now rewrite H.
Qed.

(** A collection lookup that fails gives no sequels. *)
Lemma fetch_movie_collection_failed movie_id w w1 :
  http w (Movie movie_id) = (None, w1) ->
  fetch_movie_collection http movie_id w = (Ok ([], JNull), w1).
Proof.
  intros H. unfold fetch_movie_collection, bind, attempt, requests_get_json.
  now rewrite H.
Qed.

(** The genre-vocabulary lookup of the third stage is not guarded: when
    it fails, the stage raises. *)
Lemma fallback_vocabulary_failed limit original_genres original_year
  st w w1 :
  http w GenreList = (None, w1) ->
  fallback http render str_lower limit original_genres original_year st w
  = (Raise RequestError, w1).
Proof.
  intros H. unfold fallback, bind, requests_get_json. now rewrite H.
Qed.

(** Neither is its discovery lookup. *)
Lemma fallback_discovery_failed limit original_genres original_year
  st w genre_data w1 id ids w2 :
  http w GenreList = (Some genre_data, w1) ->
  collect_genre_ids render str_lower genre_data original_genres []
  = Ok (id :: ids) ->
  http w1 (Discover (String.concat "," (id :: ids)) original_year)
  = (None, w2) ->
  fallback http render str_lower limit original_genres original_year st w
  = (Raise RequestError, w2).
Proof.
  intros H1 H2 H3. unfold fallback, bind, lift, requests_get_json.
  now rewrite H1, H2, H3.
Qed.

End Cascade.

(** The [year] entry of [movie_info] is always there, so the default
    "2000" of line 83 is never used. *)
Lemma movie_info_year details movie_info :
  movie_info_of details = Ok movie_info ->
  exists release_date year,
    Py.get details "release_date" (JStr "") = Ok release_date
    /\ Py.slice 4 release_date = Ok year
    /\ forall default, Py.get movie_info "year" default = Ok year.
Proof.
  unfold movie_info_of. intros H.
  repeat match type of H with
         | res_bind ?r _ = Ok _ =>
             let E := fresh "E" in
             destruct r eqn:E; [cbn [res_bind] in H|discriminate H]
         end.
  injection H as <-. eauto.
Qed.

(** A movie without a release date has the year [""], which [int]
    refuses. *)
Lemma original_year_undated details movie_info :
  movie_info_of details = Ok movie_info ->
  Py.get details "release_date" (JStr "") = Ok (JStr "") ->
  original_year_of movie_info = Raise ValueError.
Proof.
  intros H Hd. apply movie_info_year in H as (rd & year & Hrd & Hy & Hget).
  rewrite Hd in Hrd. injection Hrd as <-. injection Hy as <-.
  unfold original_year_of. now rewrite Hget.
Qed.

Lemma stage2_entries_recent_and_related_witness :
  exists original_genres original_year similar candidates movie,
    original_genres_of (snd Scenario.inception_result) = Ok original_genres
    /\ original_year_of (snd Scenario.inception_result) = Ok original_year
    /\ Py.subscript (snd Scenario.inception_result) "similar" = Ok similar
    /\ Py.iter similar = Ok candidates
    /\ In movie candidates
    /\ eligible Scenario.http_inception original_genres original_year
         (JStr "Interstellar") movie.
Proof.
  apply (stage2_entries_recent_and_related Scenario.http_inception
           Scenario.render Str.lower Str.title "inception" 0%nat
           (fst Scenario.inception_result) (snd Scenario.inception_result)
           9%nat eq_refl
           (JStr "Interstellar",
            "https://image.tmdb.org/t/p/w500/Interstellar", from_similar)).
  - left. reflexivity.
  - reflexivity.
Defined.

(* ================================================================= *)
(** ** Where the code leaves the specification *)

(** C1.  The genre-vocabulary request of the third stage is outside any
    [try]: when it fails, the request for "inception" ends with the
    exception instead of the one recommendation the second stage had
    found. *)
Theorem recommend_aborts_without_vocabulary :
  recommend Scenario.http_no_vocabulary Scenario.render Str.lower Str.title
      "inception" 0%nat
  = (Raise RequestError, 6%nat).
Proof. reflexivity. Qed.

(** C2.  The first stage never consults [used_titles]: a collection
    with two members of one title yields that title twice.  The second
    and third stage never compare with the resolved title: the discovery
    results for "Inception" contain "Inception", and it is recommended. *)
Theorem recommend_repeats_titles :
  ~ NoDup (map rec_title (fst Scenario.saga_result))
  /\ recommend Scenario.http_saga Scenario.render Str.lower Str.title
      "saga" 0%nat
     = (Ok Scenario.saga_result, 7%nat)
  /\ recommend Scenario.http_inception Scenario.render Str.lower Str.title
      "inception" 0%nat
     = (Ok Scenario.inception_result, 9%nat)
  /\ Py.subscript (snd Scenario.inception_result) "title"
     = Ok (JStr "Inception")
  /\ In (JStr "Inception") (map rec_title (fst Scenario.inception_result)).
Proof.
  split; [|repeat split; try reflexivity].
  - intros H. apply NoDup_cons_iff in H as [H _]. apply H. now left.
  - right. now left.
Qed.

(** C4.  Upstream has no release date for the movie: [year] is the
    empty string, [int] raises, and the request ends with [ValueError]
    instead of continuing with 2000. *)
Theorem recommend_aborts_without_year :
  recommend Scenario.http_undated Scenario.render Str.lower Str.title
      "inception" 0%nat
  = (Raise ValueError, 2%nat).
Proof. reflexivity. Qed.

(* ================================================================= *)
(** * Further properties of the code *)

(** ** Failed requests never leave the three fetch functions *)

Lemma quiet_ok {A} (a : A) : quiet (Ok a).
Proof. discriminate. Qed.

Lemma quiet_bind {A B} (r : res A) (k : A -> res B) :
  quiet r -> (forall a, quiet (k a)) -> quiet (res_bind r k).
Proof.
  intros H Hk. destruct r as [a|e]; [apply Hk|].
  intros E. apply H. simpl in E. congruence.
Qed.

Lemma quiet_map {A B} (f : A -> res B) l :
  (forall x, quiet (f x)) -> quiet (res_map f l).
Proof.
  intros Hf. induction l as [|x l IH]; simpl; [apply quiet_ok|].
  apply quiet_bind; [apply Hf|]. intros y.
  apply quiet_bind; [exact IH|]. intros ys. apply quiet_ok.
Qed.

Lemma quiet_filter_map {A B} (p : A -> res bool) (f : A -> res B) l :
  (forall x, quiet (p x)) -> (forall x, quiet (f x)) ->
  quiet (res_filter_map p f l).
Proof.
  intros Hp Hf. induction l as [|x l IH]; simpl; [apply quiet_ok|].
  apply quiet_bind; [apply Hp|]. intros [|]; [|exact IH].
  apply quiet_bind; [apply Hf|]. intros y.
  apply quiet_bind; [exact IH|]. intros ys. apply quiet_ok.
Qed.

Lemma quiet_subscript x k : quiet (Py.subscript x k).
Proof. destruct x; try discriminate. simpl. destruct Py.assoc; discriminate. Qed.

Lemma quiet_get x k d : quiet (Py.get x k d).
Proof. destruct x; try discriminate. simpl. destruct Py.assoc; discriminate. Qed.

Lemma quiet_iter x : quiet (Py.iter x).
Proof. destruct x; discriminate. Qed.

Lemma quiet_slice n x : quiet (Py.slice n x).
Proof. destruct x; discriminate. Qed.

Lemma quiet_index0 x : quiet (Py.index0 x).
Proof. destruct x as [| | |[|]|[|]|]; discriminate. Qed.

Lemma quiet_isdigit x : quiet (Py.isdigit x).
Proof. destruct x; discriminate. Qed.

Lemma quiet_contains k x : quiet (Py.contains k x).
Proof. destruct x; discriminate. Qed.

Lemma quiet_sorted_desc k d xs : quiet (sorted_desc k d xs).
Proof.
  unfold sorted_desc. apply quiet_bind; [apply quiet_iter|]. intros items.
  apply quiet_bind; [apply quiet_map; intros; apply quiet_get|]. intros keys.
  destruct items as [|a [|b items]]; try apply quiet_ok.
  destruct (all_nums keys); [apply quiet_ok|].
  destruct (all_strs keys); [apply quiet_ok|].
  destruct (forallb is_arr keys); discriminate.
Qed.

Lemma quiet_best_match results : quiet (best_match results).
Proof.
  unfold best_match. apply quiet_bind; [apply quiet_sorted_desc|].
  intros [|x l]; discriminate.
Qed.

Lemma quiet_movie_info_of details : quiet (movie_info_of details).
Proof.
  unfold movie_info_of.
  repeat (apply quiet_bind;
          [first [ apply quiet_get | apply quiet_iter | apply quiet_slice
                 | apply quiet_map; intros; apply quiet_subscript
                 | apply quiet_filter_map; intros;
                   [apply quiet_bind; [apply quiet_subscript|];
                    intros; apply quiet_ok
                   |apply quiet_subscript] ]
          |intros ?]).
  apply quiet_ok.
Qed.

Lemma quiet_has_year item : quiet (has_year item).
Proof.
  unfold has_year. apply quiet_bind; [apply quiet_contains|].
  intros [|]; [|apply quiet_ok].
  apply quiet_bind; [apply quiet_subscript|]. intros rd.
  apply quiet_bind; [apply quiet_slice|]. intros p. apply quiet_isdigit.
Qed.

Section Calm.

Context {World : Type}.
Variable http : World -> request -> option json * World.
Variable render : json -> string.
Variable str_lower : string -> string.
Variable str_title : string -> string.

Lemma calm_ret {A} (a : A) : @calm World A (ret a).
Proof. intros w w'. discriminate. Qed.

Lemma calm_lift {A} (r : res A) : quiet r -> @calm World A (lift r).
Proof. intros H w w' E. unfold lift in E. apply H. congruence. Qed.

Lemma calm_bind {A B} (m : M World A) (k : A -> M World B) :
  calm m -> (forall a, calm (k a)) -> calm (bind m k).
Proof.
  intros Hm Hk w w' E. unfold bind in E.
  destruct (m w) as [[a|e] w1] eqn:Em.
  - exact (Hk a w1 w' E).
  - apply (Hm w w1). congruence.
Qed.

(** A [try] lets nothing out but what the model does not cover. *)
Lemma calm_attempt {A} (body : M World A) : calm (attempt body).
Proof.
  intros w w' E. unfold attempt in E.
  destruct (body w) as [[a|[]] w1]; discriminate.
Qed.

Lemma calm_fetch_movie_data_from_api movie_title :
  calm (fetch_movie_data_from_api http movie_title).
Proof.
  unfold fetch_movie_data_from_api.
  apply calm_bind; [apply calm_attempt|]. intros [response|]; [|apply calm_ret].
  apply calm_bind; [apply calm_lift, quiet_subscript|]. intros results.
  destruct (Py.truthy results); [|apply calm_ret].
  apply calm_bind; [apply calm_lift, quiet_best_match|]. intros best.
  apply calm_bind; [apply calm_lift, quiet_subscript|]. intros movie_id.
  apply calm_bind; [apply calm_attempt|]. intros [details|]; [|apply calm_ret].
  apply calm_bind; [apply calm_lift, quiet_movie_info_of|]. intros info.
  apply calm_ret.
Qed.

Lemma calm_fetch_movie_collection movie_id :
  calm (fetch_movie_collection http movie_id).
Proof.
  unfold fetch_movie_collection.
  apply calm_bind; [apply calm_attempt|]. intros [details|]; [|apply calm_ret].
  apply calm_bind; [apply calm_lift, quiet_get|]. intros collection.
  apply calm_bind.
  { destruct (Py.truthy collection);
      [apply calm_lift, quiet_get|apply calm_ret]. }
  intros collection_id.
  destruct (Py.truthy collection_id); [|apply calm_ret].
  apply calm_bind; [apply calm_attempt|]. intros [coll|]; [|apply calm_ret].
  apply calm_bind; [apply calm_lift, quiet_get|]. intros parts.
  apply calm_bind; [apply calm_lift, quiet_iter|]. intros items.
  apply calm_bind; [|intros; apply calm_ret].
  apply calm_lift, quiet_filter_map;
    [apply quiet_has_year|intros; apply quiet_subscript].
Qed.

Lemma calm_fetch_poster movie_title :
  calm (fetch_poster http render movie_title).
Proof.
  unfold fetch_poster.
  apply calm_bind; [apply calm_lift; destruct movie_title; discriminate|].
  intros query.
  apply calm_bind; [apply calm_attempt|]. intros [response|]; [|apply calm_ret].
  apply calm_bind; [apply calm_lift, quiet_subscript|]. intros results.
  destruct (Py.truthy results); [|apply calm_ret].
  apply calm_bind; [apply calm_lift, quiet_index0|]. intros top.
  apply calm_bind; [apply calm_lift, quiet_get|]. intros poster_path.
  destruct (Py.truthy poster_path); [|apply calm_ret].
  apply calm_bind; [apply calm_lift, quiet_subscript|]. intros path.
  apply calm_ret.
Qed.

(** X1.  Whatever the service does, no failed request leaves
    [fetch_movie_data_from_api]: both of its requests are guarded. *)
Theorem fetch_movie_data_from_api_guarded movie_title w w' :
  fetch_movie_data_from_api http movie_title w <> (Raise RequestError, w').
Proof. apply calm_fetch_movie_data_from_api. Qed.

(** X2.  No failed request leaves [fetch_movie_collection]. *)
Theorem fetch_movie_collection_guarded movie_id w w' :
  fetch_movie_collection http movie_id w <> (Raise RequestError, w').
Proof. apply calm_fetch_movie_collection. Qed.

(** X3.  No failed request leaves [fetch_poster]. *)
Theorem fetch_poster_guarded movie_title w w' :
  fetch_poster http render movie_title w <> (Raise RequestError, w').
Proof. apply calm_fetch_poster. Qed.

End Calm.

(* ================================================================= *)
(** ** The record [fetch_movie_data_from_api] builds *)

(** A run of [res] computations that succeeded, step by step. *)
Ltac res_inv H :=
  repeat match type of H with
         | res_bind ?r _ = Ok _ =>
             let E := fresh "E" in
             destruct r eqn:E; [cbn [res_bind] in H|discriminate H]
         end.

Lemma chars_length s : List.length (Str.chars s) = String.length s.
Proof. induction s; simpl; congruence. Qed.

Lemma take_length n s : (String.length (Str.take n s) <= n)%nat.
Proof.
  revert s. induction n as [|n IH]; intros [|c s]; simpl; try lia.
  specialize (IH s). lia.
Qed.

(** A slice [x[:n]] that can be iterated has at most [n] items. *)
Lemma slice_iter_length n x y items :
  Py.slice n x = Ok y -> Py.iter y = Ok items ->
  (List.length items <= n)%nat.
Proof.
  destruct x; try discriminate; intros [= <-] [= <-].
  - rewrite length_map, chars_length. apply take_length.
  - apply firstn_le_length.
Qed.

Lemma directors_of_cons c ws :
  directors_of (c :: ws)
  = if Py.eq_str (field "job" c) "Director"
    then field "name" c :: directors_of ws
    else directors_of ws.
Proof.
  unfold directors_of. simpl.
  now destruct (Py.eq_str (field "job" c) "Director").
Qed.

Lemma directors_filter ws director :
  res_filter_map
    (fun c => (job <- Py.subscript c "job" ;;
               Ok (Py.eq_str job "Director"))%res)
    (fun c => Py.subscript c "name") ws = Ok director ->
  director = directors_of ws.
Proof.
  revert director. induction ws as [|c ws IH]; simpl; intros director H.
  - now injection H as <-.
  - rewrite directors_of_cons. unfold field.
    destruct (Py.subscript c "job") as [job|]; [|discriminate]. simpl in H.
    destruct (Py.eq_str job "Director"); [|now apply IH].
    destruct (Py.subscript c "name") as [name|]; [|discriminate].
    simpl in H.
    destruct (res_filter_map _ _ ws) as [l|]; [|discriminate].
    simpl in H. injection H as <-. f_equal. now apply IH.
Qed.

(** Everything [movie_info_of] does when it returns a record. *)
Lemma movie_info_of_inv details info :
  movie_info_of details = Ok info ->
  exists title genre year cast crew ws overview rating sim similar,
    info = JObj [("title", title); ("genre", JArr genre); ("year", year);
                 ("cast", JArr cast); ("director", JArr (directors_of ws));
                 ("overview", overview); ("rating", rating);
                 ("similar", similar)]
    /\ (List.length cast <= 5)%nat
    /\ Py.get details "title" JNull = Ok title
    /\ (exists release_date,
          Py.get details "release_date" (JStr "") = Ok release_date
          /\ Py.slice 4 release_date = Ok year)
    /\ (exists credits,
          Py.get details "credits" (JObj []) = Ok credits
          /\ Py.get credits "crew" (JArr []) = Ok crew
          /\ Py.iter crew = Ok ws)
    /\ Py.get details "overview" (JStr "No description available.")
       = Ok overview
    /\ Py.get details "vote_average" (JStr "N/A") = Ok rating
    /\ Py.get details "similar" (JObj []) = Ok sim
    /\ Py.get sim "results" (JArr []) = Ok similar.
Proof.
  unfold movie_info_of. intros H. res_inv H. injection H as <-.
  apply directors_filter in E12. subst a12.
  exists a, a2, a4, a9, a10, a11, a13, a14, a15, a16.
  split; [reflexivity|]. split.
  { erewrite res_map_length by eassumption.
    eapply slice_iter_length; eassumption. }
  repeat split; eauto.
Qed.

Section Record.

Context {World : Type}.
Variable http : World -> request -> option json * World.
Variable render : json -> string.
Variable str_lower : string -> string.
Variable str_title : string -> string.

(** What [fetch_movie_data_from_api] returns: nothing, or the record
    of the details that were fetched for the best match. *)
Lemma fetch_movie_data_from_api_inv movie_title w info movie_id w' :
  fetch_movie_data_from_api http movie_title w = (Ok (info, movie_id), w') ->
  (info = JNull /\ movie_id = JNull)
  \/ exists details, movie_info_of details = Ok info.
Proof.
  unfold fetch_movie_data_from_api. intros H.
  step H as r w1 E1. destruct r as [response|];
    [|apply ret_ok in H as [[= -> ->] _]; now left].
  step H as results w2 E2.
  destruct (Py.truthy results);
    [|apply ret_ok in H as [[= -> ->] _]; now left].
  step H as best w3 E3. step H as id w4 E4. step H as d w5 E5.
  destruct d as [details|];
    [|apply ret_ok in H as [[= -> ->] _]; now left].
  step H as movie_info w6 E6. lifted E6.
  apply ret_ok in H as [[= -> ->] _]. right. eauto.
Qed.

(** X4.  When [fetch_movie_data_from_api] returns a record, the record
    has exactly the eight entries title, genre, year, cast, director,
    overview, rating and similar, in this order, and at most five cast
    names; otherwise it returns [(None, None)]. *)
Theorem fetch_movie_data_from_api_shape movie_title w info movie_id w' :
  fetch_movie_data_from_api http movie_title w = (Ok (info, movie_id), w') ->
  (info = JNull /\ movie_id = JNull)
  \/ exists title genre year cast director overview rating similar,
       info = JObj [("title", title); ("genre", JArr genre); ("year", year);
                    ("cast", JArr cast); ("director", JArr director);
                    ("overview", overview); ("rating", rating);
                    ("similar", similar)]
       /\ (List.length cast <= 5)%nat.
Proof.
  intros H. apply fetch_movie_data_from_api_inv in H as [H|[details H]];
    [now left|right].
  apply movie_info_of_inv in H
    as (title & genre & year & cast & crew & ws & overview & rating & sim
        & similar & -> & Hcast & _).
  do 8 eexists. split; [reflexivity|exact Hcast].
Qed.

End Record.

(** X5.  The director entry of the record lists the names of exactly
    the crew members whose job is "Director" (the exact string), in
    upstream order. *)
Theorem movie_info_directors details info :
  movie_info_of details = Ok info ->
  exists credits crew ws,
    Py.get details "credits" (JObj []) = Ok credits
    /\ Py.get credits "crew" (JArr []) = Ok crew
    /\ Py.iter crew = Ok ws
    /\ Py.subscript info "director" = Ok (JArr (directors_of ws)).
Proof.
  intros H. apply movie_info_of_inv in H
    as (title & genre & year & cast & crew & ws & overview & rating & sim
        & similar & -> & _ & _ & _ & (credits & Hc & Hcrew & Hws) & _).
  exists credits, crew, ws. repeat split; assumption.
Qed.

(** X6.  The scalar entries of the record are those of the details with
    the defaults of the code: the title or [None], the first four
    characters of the release date or of the empty string, the overview
    or "No description available.", the rating or "N/A", and the results
    of the similar titles or the empty list.  A default is used only
    when the entry is absent, not when it is empty or [null]. *)
Theorem movie_info_defaults details info :
  movie_info_of details = Ok info ->
  Py.subscript info "title" = Py.get details "title" JNull
  /\ Py.subscript info "year"
     = (release_date <- Py.get details "release_date" (JStr "") ;;
        Py.slice 4 release_date)%res
  /\ Py.subscript info "overview"
     = Py.get details "overview" (JStr "No description available.")
  /\ Py.subscript info "rating" = Py.get details "vote_average" (JStr "N/A")
  /\ Py.subscript info "similar"
     = (similar <- Py.get details "similar" (JObj []) ;;
        Py.get similar "results" (JArr []))%res.
Proof.
  intros H. apply movie_info_of_inv in H
    as (title & genre & year & cast & crew & ws & overview & rating & sim
        & similar & -> & _ & Ht & (rd & Hrd & Hy) & _ & Ho & Hr & Hs & Hsr).
  rewrite Ht, Hrd, Ho, Hr, Hs. simpl. rewrite Hy, Hsr. repeat split.
Qed.

(* ================================================================= *)
(** ** What every stage keeps *)

Lemma eqb_trans a b c :
  Py.eqb a b = true -> Py.eqb b c = true -> Py.eqb a c = true.
Proof.
  intros Hab Hbc.
  destruct a, b; simpl in Hab; try discriminate;
    destruct c; simpl in *; try discriminate; try reflexivity;
    try (eapply Qeq_bool_trans; eassumption).
  apply String.eqb_eq in Hab, Hbc. subst. apply String.eqb_refl.
Qed.

Lemma existsb_eqb_false t x used :
  existsb (Py.eqb t) used = false ->
  existsb (Py.eqb x) used = true ->
  Py.eqb t x = false.
Proof.
  intros Ht Hx. apply existsb_exists in Hx as (u & Hu & Hxu).
  destruct (Py.eqb t x) eqn:E; [|reflexivity].
  rewrite <- Ht. symmetry. apply existsb_exists.
  exists u. split; [exact Hu|]. eapply eqb_trans; eassumption.
Qed.

Lemma late_titles_new_nil : late_titles_new [].
Proof. intros [|x l] r after H; discriminate. Qed.

Lemma late_titles_new_snoc l x :
  late_titles_new l ->
  (rec_source x = from_collection
   \/ forall r', In r' l -> Py.eqb (rec_title x) (rec_title r') = false) ->
  late_titles_new (l ++ [x]).
Proof.
  intros Hl Hx before r after Heq Hsrc r' Hin.
  destruct (exists_last (l := r :: after)) as (mid & y & Hlast);
    [discriminate|].
  rewrite Hlast, app_assoc in Heq. apply app_inj_tail in Heq as [-> ->].
  destruct mid as [|r0 mid]; simpl in Hlast.
  - injection Hlast as <- ->.
    destruct Hx as [Hx|Hx]; [contradiction|].
    apply Hx, in_or_app. now left.
  - injection Hlast as <- ->. eapply Hl; eauto.
Qed.

Section Kept.

Context {World : Type}.
Variable http : World -> request -> option json * World.
Variable render : json -> string.
Variable str_lower : string -> string.
Variable str_title : string -> string.

Lemma accept_inv title source st w st' w' :
  accept http render title source st w = (Ok st', w') ->
  exists poster used',
    fetch_poster http render title w = (Ok poster, w')
    /\ Py.set_add title (snd st) = Ok used'
    /\ st' = (fst st ++ [(title, poster, source)], used').
Proof.
  unfold accept. intros H.
  step H as poster w1 E1. step H as used w2 E2. lifted E2. returned H.
  eauto.
Qed.

(** The stages change the state through [accept] only; what [accept]
    keeps under the tests of a stage, the stage keeps. *)
Section Invariant.

Variable I : state -> Prop.

Lemma stage1_keeps limit movie_info :
  (forall title st w st' w',
      I st -> differs_from_resolved str_lower movie_info title ->
      accept http render title from_collection st w = (Ok st', w') ->
      I st') ->
  forall sequels st w st' w',
    I st ->
    stage1 http render str_lower limit movie_info sequels st w = (Ok st', w') ->
    I st'.
Proof.
  intros Hacc. induction sequels as [|title rest IH];
    intros st w st' w' HI H; cbn [stage1] in H.
  - now returned H.
  - step H as lowered w1 E1. lifted E1. step H as own w2 E2. lifted E2.
    step H as own_lowered w3 E3. lifted E3. step H as st1 w4 E4.
    assert (I st1) as HI1.
    { destruct (String.eqb_spec lowered own_lowered) as [Heq|Hne];
        simpl in E4.
      - now returned E4.
      - eapply Hacc; [exact HI| |exact E4].
        exists lowered, own, own_lowered. auto. }
    destruct (limit <=? List.length (fst st1))%nat; [now returned H|eauto].
Qed.

Lemma skipped_false title release_date used :
  skipped title release_date used = Ok false -> fresh_title title used.
Proof.
  unfold skipped, fresh_title.
  destruct (Py.truthy title); [|discriminate].
  destruct (Py.truthy release_date); [|discriminate]. auto.
Qed.

Lemma stage2_keeps limit original_genres original_year :
  (forall title st w st' w',
      I st -> fresh_title title (snd st) ->
      accept http render title from_similar st w = (Ok st', w') ->
      I st') ->
  forall candidates st w st' w',
    I st ->
    stage2 http render limit original_genres original_year candidates st w
    = (Ok st', w') ->
    I st'.
Proof.
  intros Hacc. induction candidates as [|movie rest IH];
    intros st w st' w' HI H; cbn [stage2] in H.
  - now returned H.
  - step H as title w1 E1. step H as release_date w2 E2.
    step H as skip w3 E3. lifted E3.
    destruct skip; [eauto|]. apply skipped_false in E3.
    step H as prefix w4 E4. step H as year w5 E5.
    destruct (year <? original_year - 2)%Z; [eauto|].
    step H as movie_id w6 E6. step H as g w7 E7.
    destruct g as [movie_genres|]; [|eauto].
    destruct (negb (Py.intersects original_genres movie_genres)); [eauto|].
    step H as st1 w8 E8.
    assert (I st1) as HI1 by (eapply Hacc; eauto).
    destruct (limit <=? List.length (fst st1))%nat; [now returned H|eauto].
Qed.

Lemma stage3_keeps limit :
  (forall title st w st' w',
      I st -> fresh_title title (snd st) ->
      accept http render title from_fallback st w = (Ok st', w') ->
      I st') ->
  forall results st w st' w',
    I st ->
    stage3 http render limit results st w = (Ok st', w') ->
    I st'.
Proof.
  intros Hacc. induction results as [|movie rest IH];
    intros st w st' w' HI H; cbn [stage3] in H.
  - now returned H.
  - step H as title w1 E1. step H as fresh w2 E2. lifted E2.
    step H as st1 w3 E3.
    assert (I st1) as HI1.
    { destruct fresh; [|now returned E3].
      eapply Hacc; [exact HI| |exact E3].
      unfold fresh_title. destruct (Py.truthy title); [|discriminate].
      destruct (Py.set_mem title (snd st)) as [[|]|]; try discriminate.
      auto. }
    destruct (limit <=? List.length (fst st1))%nat; [now returned H|eauto].
Qed.

(** A request that returned a list for a resolved movie. *)
Lemma recommend_upto_keeps limit movie_title w recs info w' :
  I ([], []) ->
  (forall title st w st' w',
      I st -> differs_from_resolved str_lower info title ->
      accept http render title from_collection st w = (Ok st', w') ->
      I st') ->
  (forall title source st w st' w',
      source = from_similar \/ source = from_fallback ->
      I st -> fresh_title title (snd st) ->
      accept http render title source st w = (Ok st', w') ->
      I st') ->
  recommend_upto http render str_lower str_title limit movie_title w
  = (Ok (recs, info), w') ->
  (recs, info) = not_found str_title movie_title
  \/ exists used movie_id w1,
       I (recs, used)
       /\ fetch_movie_data_from_api http movie_title w
          = (Ok (info, movie_id), w1)
       /\ Py.truthy info = true.
Proof.
  intros H0 H1 H23. unfold recommend_upto. intros H.
  step H as found w1 E1. destruct found as [movie_info movie_id].
  destruct (Py.truthy movie_info) eqn:Etruthy; simpl in H.
  2:{ apply ret_ok in H as [H ->]. now left. }
  right.
  step H as original_genres w2 E2. step H as original_year w3 E3.
  step H as coll w4 E4. destruct coll as [sequels collection_id].
  step H as st1 w5 E5. step H as st2 w6 E6. step H as st3 w7 E7.
  apply ret_ok in H as [[= -> ->] ->].
  exists (snd st3), movie_id, w1.
  split; [|split; [exact E1|exact Etruthy]].
  rewrite <- surjective_pairing.
  assert (I st1) as HI1 by (eapply stage1_keeps; eauto).
  assert (I st2) as HI2.
  { destruct (List.length (fst st1) <? limit)%nat; [|now returned E6].
    step E6 as similar w8 E8. step E6 as candidates w9 E9.
    eapply stage2_keeps; [|exact HI1|exact E6].
    intros t s0 u0 s1 u1 A B C. apply (H23 t from_similar s0 u0 s1 u1); auto. }
  destruct (List.length (fst st2) <? limit)%nat; [|now returned E7].
  unfold fallback in E7.
  step E7 as genre_data w8 E8. step E7 as genre_ids w9 E9.
  destruct genre_ids as [|id ids]; [now returned E7|].
  step E7 as fallback_resp w10 E10. step E7 as results w11 E11.
  step E7 as movies w12 E12.
  eapply stage3_keeps; [|exact HI2|exact E7].
  intros t s0 u0 s1 u1 A B C. apply (H23 t from_fallback s0 u0 s1 u1); auto.
Qed.

End Invariant.

End Kept.

(* ================================================================= *)
(** ** The list of a resolved movie *)

Lemma covered_add recs used title used' poster source :
  covered (recs, used) ->
  Py.set_add title used = Ok used' ->
  covered (recs ++ [(title, poster, source)], used').
Proof.
  unfold Py.set_add, covered. simpl. intros Hc Hadd r t Hr Ht.
  destruct (Py.hashable title); [|discriminate]. injection Hadd as <-.
  destruct (existsb (Py.eqb title) used) eqn:Eused.
  - apply in_app_or in Hr as [Hr|[<-|[]]]; [now apply Hc|].
    simpl. eapply existsb_eqb_false; eassumption.
  - rewrite existsb_app in Ht. simpl in Ht.
    apply orb_false_elim in Ht as [Ht1 Ht2].
    apply orb_false_elim in Ht2 as [Ht2 _].
    apply in_app_or in Hr as [Hr|[<-|[]]]; [now apply Hc|exact Ht2].
Qed.

Section Resolved.

Context {World : Type}.
Variable http : World -> request -> option json * World.
Variable render : json -> string.
Variable str_lower : string -> string.
Variable str_title : string -> string.

Lemma fetch_poster_cases movie_title w url w' :
  fetch_poster http render movie_title w = (Ok url, w') -> poster_shape url.
Proof.
  unfold fetch_poster, poster_shape. intros H.
  step H as query w1 E1. step H as r w2 E2.
  destruct r as [response|]; [|returned H; now left].
  step H as results w3 E3.
  destruct (Py.truthy results); [|returned H; right; now left].
  step H as top w4 E4. step H as poster_path w5 E5.
  destruct (Py.truthy poster_path); [|returned H; right; now left].
  step H as path w6 E6. returned H. right. right. eauto.
Qed.

(** X7.  Whatever the service answers, a URL that [fetch_poster]
    returns is the "Error" placeholder, the "No Poster" placeholder, or
    the image base followed by a path. *)
Theorem fetch_poster_url_shape movie_title w url w' :
  fetch_poster http render movie_title w = (Ok url, w') ->
  url = "https://via.placeholder.com/300x450?text=Error"
  \/ url = "https://via.placeholder.com/300x450?text=No+Poster"
  \/ exists path, url = ("https://image.tmdb.org/t/p/w500" ++ path)%string.
Proof. apply fetch_poster_cases. Qed.

(** X8.  In the list of a resolved movie every poster is one of the URLs
    of [fetch_poster]; the "Not Found" placeholder comes with the
    "Movie not found" entry only. *)
Theorem recommend_posters movie_title w recs info w' :
  recommend http render str_lower str_title movie_title w
  = (Ok (recs, info), w') ->
  (recs, info) = not_found str_title movie_title
  \/ Forall (fun r => poster_shape (rec_poster r)) recs.
Proof.
  intros H.
  apply (recommend_upto_keeps http render str_lower str_title
           (fun st => Forall (fun r => poster_shape (rec_poster r)) (fst st)))
    in H as [H|(used & _ & _ & H & _)]; [now left|now right|constructor|..].
  - intros title st u st' u' HI _ Hacc.
    apply accept_inv in Hacc as (poster & used' & Hp & _ & ->). simpl.
    apply Forall_app. split; [exact HI|]. constructor; [|constructor].
    eapply fetch_poster_cases, Hp.
  - intros title source st u st' u' _ HI _ Hacc.
    apply accept_inv in Hacc as (poster & used' & Hp & _ & ->). simpl.
    apply Forall_app. split; [exact HI|]. constructor; [|constructor].
    eapply fetch_poster_cases, Hp.
Qed.

(** X9.  An entry of the second or third stage never repeats the title
    of an entry before it in the list. *)
Theorem recommend_late_titles_new movie_title w recs info w' :
  recommend http render str_lower str_title movie_title w
  = (Ok (recs, info), w') ->
  late_titles_new recs.
Proof.
  intros H.
  apply (recommend_upto_keeps http render str_lower str_title
           (fun st => covered st /\ late_titles_new (fst st)))
    in H as [H|(used & _ & _ & [_ H] & _)]; [| exact H | |..].
  - injection H as -> _. intros [|x [|y l]] r after Heq; try discriminate.
    intros _ r' [].
  - split; [intros r t []|apply late_titles_new_nil].
  - intros title [recs0 used0] u st' u' [Hc Hl] _ Hacc.
    apply accept_inv in Hacc as (poster & used' & _ & Hadd & ->).
    split; [eapply covered_add; eassumption|].
    apply late_titles_new_snoc; [exact Hl|now left].
  - intros title source [recs0 used0] u st' u' _ [Hc Hl] [_ Hfresh] Hacc.
    apply accept_inv in Hacc as (poster & used' & _ & Hadd & ->).
    split; [eapply covered_add; eassumption|].
    apply late_titles_new_snoc; [exact Hl|right].
    intros r' Hr'. apply (Hc r' title Hr').
    unfold Py.set_mem in Hfresh. simpl in Hfresh.
    destruct (Py.hashable title); [|discriminate].
    simpl. now injection Hfresh.
Qed.

(** X10.  Every entry of the first stage has a title that differs from
    the resolved title when both are lower-cased, by Python's
    [str.lower] whatever it is ([str_lower]). *)
Theorem recommend_collection_titles_differ movie_title w recs info w' :
  recommend http render str_lower str_title movie_title w
  = (Ok (recs, info), w') ->
  forall r, In r recs -> rec_source r = from_collection ->
  differs_from_resolved str_lower info (rec_title r).
Proof.
  intros H r Hr Hs.
  apply (recommend_upto_keeps http render str_lower str_title
           (fun st => Forall (fun r => rec_source r = from_collection ->
                                       differs_from_resolved str_lower info
                                         (rec_title r)) (fst st)))
    in H as [H|(used & _ & _ & H & _)].
  - injection H as -> _. destruct Hr as [<-|[]]. discriminate Hs.
  - simpl in H. rewrite Forall_forall in H. now apply H.
  - constructor.
  - intros title st u st' u' HI Hd Hacc.
    apply accept_inv in Hacc as (poster & used' & _ & _ & ->). simpl.
    apply Forall_app. split; [exact HI|]. now repeat constructor.
  - intros title source st u st' u' Hsource HI _ Hacc.
    apply accept_inv in Hacc as (poster & used' & _ & _ & ->). simpl.
    apply Forall_app. split; [exact HI|]. repeat constructor.
    simpl. intros Hsrc. destruct Hsource as [-> | ->]; discriminate Hsrc.
Qed.

End Resolved.

(* ================================================================= *)
(** ** Outcomes of a request *)

Lemma res_filter_map_in {A B} (p : A -> res bool) (f : A -> res B) l ys :
  res_filter_map p f l = Ok ys ->
  forall y, In y ys -> exists x, In x l /\ p x = Ok true /\ f x = Ok y.
Proof.
  revert ys. induction l as [|x l IH]; simpl; intros ys H y Hy.
  - injection H as <-. destruct Hy.
  - destruct (p x) as [[|]|] eqn:Ep; simpl in H; try discriminate.
    + destruct (f x) as [y0|] eqn:Ef; [|discriminate]. simpl in H.
      destruct (res_filter_map p f l) as [ys0|]; [|discriminate].
      simpl in H. injection H as <-.
      destruct Hy as [<-|Hy]; [eauto|].
      destruct (IH ys0 eq_refl y Hy) as (x0 & ? & ? & ?). eauto.
    + destruct (IH ys H y Hy) as (x0 & ? & ? & ?). eauto.
Qed.

(** X11.  Whatever the popularity entries are, a best match is one of
    the search results. *)
Theorem best_match_is_a_result results best :
  best_match results = Ok best ->
  exists items, Py.iter results = Ok items /\ In best items.
Proof.
  unfold best_match. intros H.
  destruct (sorted_desc "popularity" (JNum 0) results) as [visited|] eqn:E;
    [|discriminate].
  simpl in H. destruct visited as [|x visited]; [discriminate|].
  injection H as ->.
  destruct (Py.iter results) as [items|] eqn:Ei.
  - exists items. split; [reflexivity|].
    eapply Permutation_in;
      [symmetry; eapply sorted_desc_perm; eassumption|now left].
  - unfold sorted_desc in E. rewrite Ei in E. discriminate.
Qed.

Section Outcomes.

Context {World : Type}.
Variable http : World -> request -> option json * World.
Variable render : json -> string.
Variable str_lower : string -> string.
Variable str_title : string -> string.

(** X12.  Every title [fetch_movie_collection] returns is the title
    entry of a part of the collection whose release date passed the
    digit test, and titles are only returned after both requests
    succeeded. *)
Theorem fetch_movie_collection_sound movie_id w titles collection_id w' :
  fetch_movie_collection http movie_id w = (Ok (titles, collection_id), w') ->
  forall title, In title titles ->
  exists details w1 coll parts items item,
    http w (Movie movie_id) = (Some details, w1)
    /\ http w1 (Collection collection_id) = (Some coll, w')
    /\ Py.get coll "parts" (JArr []) = Ok parts
    /\ Py.iter parts = Ok items
    /\ In item items
    /\ has_year item = Ok true
    /\ Py.subscript item "title" = Ok title.
Proof.
  unfold fetch_movie_collection. intros H title Ht.
  step H as r w1 E1. destruct r as [details|];
    [|apply ret_ok in H as [[= -> _] _]; destruct Ht].
  step H as collection w2 E2. lifted E2.
  step H as cid w3 E3.
  destruct (Py.truthy cid);
    [|apply ret_ok in H as [[= -> _] _]; destruct Ht].
  step H as c w4 E4. destruct c as [coll|];
    [|apply ret_ok in H as [[= -> _] _]; destruct Ht].
  step H as parts w5 E5. lifted E5. step H as items w6 E6. lifted E6.
  step H as found w7 E7. lifted E7.
  apply ret_ok in H as [[= -> ->] ->].
  destruct (res_filter_map_in _ _ _ _ E7 title Ht) as (item & Hi & Hy & Hti).
  exists details, w3, coll, parts, items, item.
  assert (w3 = w1) as ->.
  { destruct (Py.truthy collection); [now lifted E3|now returned E3]. }
  unfold attempt, requests_get_json in E1, E4.
  destruct (http w (Movie movie_id)) as [[d|] u1]; [|discriminate].
  injection E1 as -> ->.
  destruct (http w1 (Collection cid)) as [[c|] u2]; [|discriminate].
  injection E4 as -> ->.
  repeat split; assumption.
Qed.

(** X13.  The entries of a resolved movie come in the order of the
    stages: first those of the collection, then the similar titles,
    then the fallback. *)
Theorem recommend_stage_order movie_title w recs info w' :
  recommend http render str_lower str_title movie_title w
  = (Ok (recs, info), w') ->
  (recs, info) = not_found str_title movie_title
  \/ exists sequels similars fallbacks,
       recs = sequels ++ similars ++ fallbacks
       /\ Forall (fun r => rec_source r = from_collection) sequels
       /\ Forall (fun r => rec_source r = from_similar) similars
       /\ Forall (fun r => rec_source r = from_fallback) fallbacks.
Proof.
  unfold recommend, recommend_upto. intros H.
  step H as found w1 E1. destruct found as [movie_info movie_id].
  destruct (negb (Py.truthy movie_info)).
  { apply ret_ok in H as [H ->]. now left. }
  right.
  step H as original_genres w2 E2. step H as original_year w3 E3.
  step H as coll w4 E4. destruct coll as [sequels collection_id].
  step H as st1 w5 E5. step H as st2 w6 E6. step H as st3 w7 E7.
  apply ret_ok in H as [[= -> ->] ->].
  apply stage1_ok in E5 as (a1 & H1 & F1 & _). simpl in H1.
  assert (exists a2, fst st2 = fst st1 ++ a2
                     /\ Forall (fun r => rec_source r = from_similar) a2)
    as (a2 & H2 & F2).
  { destruct (List.length (fst st1) <? 5)%nat.
    - step E6 as similar w8 E8. step E6 as candidates w9 E9.
      apply stage2_ok in E6 as (a2 & H2 & F2 & _).
      exists a2. split; [exact H2|].
      eapply Forall_impl; [|exact F2]. now intros r [Hs _].
    - returned E6. exists []. now rewrite app_nil_r. }
  assert (exists a3, fst st3 = fst st2 ++ a3
                     /\ Forall (fun r => rec_source r = from_fallback) a3)
    as (a3 & H3 & F3).
  { destruct (List.length (fst st2) <? 5)%nat.
    - apply fallback_ok in E7 as (a3 & H3 & F3 & _). eauto.
    - returned E7. exists []. now rewrite app_nil_r. }
  exists a1, a2, a3. rewrite H3, H2, H1, app_assoc. auto.
Qed.

(** X14.  A search answer without a "results" entry (the service's
    error body, for one) is not handled: the request ends with
    [KeyError]. *)
Theorem recommend_without_results_entry movie_title w kv w1 :
  http w (SearchMovie movie_title) = (Some (JObj kv), w1) ->
  Py.assoc "results" kv = None ->
  recommend http render str_lower str_title movie_title w
  = (Raise KeyError, w1).
Proof.
  intros Hs Hk. unfold recommend, recommend_upto, fetch_movie_data_from_api.
  unfold bind, attempt, requests_get_json, lift. rewrite Hs. simpl.
  now rewrite Hk.
Qed.

(** X15.  The two outcomes of a request that returns can be told apart
    by the second component: it is the title-cased input
    [movie_title.title()], a string, with the "Movie not found" entry,
    or a record of eight entries with
    a list whose entries all come from one of the three stages. *)
Theorem recommend_outcomes movie_title w recs info w' :
  recommend http render str_lower str_title movie_title w
  = (Ok (recs, info), w') ->
  (recs = [(JStr "Movie not found", poster_not_found, "")]
   /\ info = JStr (str_title movie_title))
  \/ ((exists title genre year cast director overview rating similar,
          info = JObj [("title", title); ("genre", JArr genre);
                       ("year", year); ("cast", JArr cast);
                       ("director", JArr director); ("overview", overview);
                       ("rating", rating); ("similar", similar)])
      /\ Forall (fun r => rec_source r = from_collection
                          \/ rec_source r = from_similar
                          \/ rec_source r = from_fallback) recs).
Proof.
  intros H. pose proof H as H'.
  apply (recommend_upto_keeps http render str_lower str_title (fun _ => True))
    in H as [H|(used & movie_id & w1 & _ & Hf & Ht)]; auto.
  - injection H as -> ->. now left.
  - right.
    apply fetch_movie_data_from_api_inv in Hf as [[-> _]|[details Hd]];
      [discriminate Ht|].
    apply movie_info_of_inv in Hd
      as (title & genre & year & cast & crew & ws & overview & rating
          & sim & similar & -> & _).
    split; [do 8 eexists; reflexivity|].
    apply recommend_upto_ok in H' as [H'|(added & -> & Hadded & _)];
      [discriminate H'|].
    simpl. eapply Forall_impl; [|exact Hadded].
    intros r [Hr|[Hr|[Hr _]]]; auto.
Qed.

End Outcomes.

(* ================================================================= *)
(** ** The third stage: genre names to genre ids *)

Lemma ids_named_cons render str_lower name g_map vocabulary :
  ids_named render str_lower name (g_map :: vocabulary)
  = if match field "name" g_map with
       | JStr n => (str_lower n =? str_lower name)%string
       | _ => false
       end
    then fmt render (field "id" g_map)
         :: ids_named render str_lower name vocabulary
    else ids_named render str_lower name vocabulary.
Proof.
  unfold ids_named. simpl.
  now destruct (match field "name" g_map with
                | JStr n => (str_lower n =? str_lower name)%string
                | _ => false
                end).
Qed.

Lemma match_genre_ids render str_lower name vocabulary :
  Forall genre_entry vocabulary ->
  forall genre_ids,
    match_genre render str_lower (JStr name) vocabulary genre_ids
    = Ok (genre_ids ++ ids_named render str_lower name vocabulary).
Proof.
  induction 1 as [|g_map vocabulary (n & id & Hn & Hid) _ IH];
    intros genre_ids; simpl.
  - now rewrite app_nil_r.
  - rewrite ids_named_cons. unfold field. rewrite Hn, Hid. simpl.
    destruct (str_lower n =? str_lower name)%string.
    + rewrite IH, <- app_assoc. reflexivity.
    + apply IH.
Qed.

(** X16.  With a vocabulary of named entries, the third stage collects,
    genre by genre of the movie, the id of every entry whose name
    equals the genre when both are lower-cased, in vocabulary order; an
    entry that matches twice is listed twice. *)
Theorem collect_genre_ids_named render str_lower genre_data vocabulary
  genres :
  Py.get genre_data "genres" (JArr []) = Ok (JArr vocabulary) ->
  Forall genre_entry vocabulary ->
  collect_genre_ids render str_lower genre_data (map JStr genres) []
  = Ok (genre_ids_of render str_lower vocabulary genres).
Proof.
  intros Hg Hv.
  assert (forall genre_ids,
             collect_genre_ids render str_lower genre_data (map JStr genres)
               genre_ids
             = Ok (genre_ids
                   ++ genre_ids_of render str_lower vocabulary genres))
    as Hgen; [|apply (Hgen [])].
  induction genres as [|name genres IH]; intros genre_ids; simpl.
  - now rewrite app_nil_r.
  - rewrite Hg. simpl. rewrite (match_genre_ids _ _ _ _ Hv). simpl.
    rewrite IH, <- app_assoc. reflexivity.
Qed.

(* ================================================================= *)
(** ** The second stage: candidates that end or survive the visit *)

Section Candidates.

Context {World : Type}.
Variable http : World -> request -> option json * World.
Variable render : json -> string.
Variable str_lower : string -> string.
Variable str_title : string -> string.

Lemma bind_lift_ok {A B} (r : res A) (k : A -> M World B) a w :
  r = Ok a -> bind (lift r) k w = k a w.
Proof. now intros ->. Qed.

Lemma bind_lift_raise {A B} (r : res A) (k : A -> M World B) e w :
  r = Raise e -> bind (lift r) k w = (Raise e, w).
Proof. now intros ->. Qed.

Lemma truthy_string s : s <> "" -> Py.truthy (JStr s) = true.
Proof. intros H. simpl. now destruct (String.eqb_spec s ""). Qed.

(** X17.  The year of a candidate is not tested before [int] reads
    it: a candidate that is visited with a fresh title and a release
    date whose first four characters are no integer ends the request
    with [ValueError]. *)
Theorem stage2_unreadable_year limit original_genres original_year
  movie rest st w title date :
  Py.get movie "title" JNull = Ok title ->
  Py.get movie "release_date" JNull = Ok (JStr date) ->
  date <> "" ->
  fresh_title title (snd st) ->
  Str.parse_int (Str.take 4 date) = None ->
  stage2 http render limit original_genres original_year (movie :: rest) st w
  = (Raise ValueError, w).
Proof.
  intros Ht Hd Hne [Htruthy Hmem] Hint. cbn [stage2].
  rewrite (bind_lift_ok _ _ _ _ Ht), (bind_lift_ok _ _ _ _ Hd).
  rewrite (bind_lift_ok _ _ false).
  2:{ unfold skipped. now rewrite Htruthy, (truthy_string _ Hne). }
  rewrite (bind_lift_ok _ _ (JStr (Str.take 4 date))) by reflexivity.
  apply bind_lift_raise. unfold Py.int. now rewrite Hint.
Qed.

(** X18.  A candidate whose genre lookup fails, by a failed request
    or by an answer of another shape, is passed over and the visit goes
    on with the next one. *)
Theorem stage2_failed_lookup_skipped limit original_genres original_year
  movie rest st w title release_date prefix year movie_id e w1 :
  Py.get movie "title" JNull = Ok title ->
  Py.get movie "release_date" JNull = Ok release_date ->
  skipped title release_date (snd st) = Ok false ->
  Py.slice 4 release_date = Ok prefix ->
  Py.int prefix = Ok year ->
  (original_year - 2 <= year)%Z ->
  Py.subscript movie "id" = Ok movie_id ->
  candidate_genres http movie_id w = (Raise e, w1) ->
  e <> Unmodelled ->
  stage2 http render limit original_genres original_year (movie :: rest) st w
  = stage2 http render limit original_genres original_year rest st w1.
Proof.
  intros Ht Hd Hs Hp Hy Hge Hid Hg He. cbn [stage2].
  rewrite (bind_lift_ok _ _ _ _ Ht), (bind_lift_ok _ _ _ _ Hd).
  rewrite (bind_lift_ok _ _ _ _ Hs), (bind_lift_ok _ _ _ _ Hp).
  rewrite (bind_lift_ok _ _ _ _ Hy), (proj2 (Z.ltb_ge _ _) Hge).
  rewrite (bind_lift_ok _ _ _ _ Hid).
  rewrite (bind_intro _ _ w None w1); [reflexivity|].
  unfold attempt. rewrite Hg. destruct e; try reflexivity. contradiction.
Qed.

(** X19.  A resolved movie with no sequels, no similar titles and no
    genre the vocabulary knows gets the empty list, not the "Movie not
    found" entry. *)
Theorem recommend_nothing_to_offer movie_title w info movie_id w1
  original_genres original_year collection_id w2 genre_data w3 :
  fetch_movie_data_from_api http movie_title w = (Ok (info, movie_id), w1) ->
  Py.truthy info = true ->
  original_genres_of info = Ok original_genres ->
  original_year_of info = Ok original_year ->
  fetch_movie_collection http movie_id w1 = (Ok ([], collection_id), w2) ->
  Py.subscript info "similar" = Ok (JArr []) ->
  http w2 GenreList = (Some genre_data, w3) ->
  collect_genre_ids render str_lower genre_data original_genres [] = Ok [] ->
  recommend http render str_lower str_title movie_title w = (Ok ([], info), w3).
Proof.
  intros Hf Ht Hg Hy Hc Hs Hv Hids.
  unfold recommend, recommend_upto.
  rewrite (bind_intro _ _ _ _ _ Hf). rewrite Ht. cbn [negb].
  rewrite (bind_lift_ok _ _ _ _ Hg), (bind_lift_ok _ _ _ _ Hy).
  rewrite (bind_intro _ _ _ _ _ Hc). cbn [stage1].
  unfold bind at 1. unfold ret at 1. cbv beta iota.
  cbn [fst List.length Nat.ltb Nat.leb].
  erewrite bind_intro
    by (rewrite (bind_lift_ok _ _ _ _ Hs);
        rewrite (bind_lift_ok _ _ []) by reflexivity; reflexivity).
  cbn [fst List.length Nat.ltb Nat.leb].
  rewrite (bind_intro _ _ w2 (@nil recommendation, @nil json) w3);
    [reflexivity|].
  unfold fallback. unfold bind at 1, requests_get_json. rewrite Hv.
  now rewrite (bind_lift_ok _ _ _ _ Hids).
Qed.

End Candidates.

(* ================================================================= *)
(** ** The page *)

Lemma eval_then {A B} (r : res A) (k : A -> shown B) out b :
  then_show (eval r) k = (out, Ok b) ->
  exists a, r = Ok a /\ k a = (out, Ok b).
Proof.
  unfold then_show, eval. destruct r as [a|e]; [|discriminate].
  destruct (k a) as [out' r'] eqn:E. simpl. intros [= <- ->]. eauto.
Qed.

Lemma say_then {B} (x : widget) (k : unit -> shown B) out b :
  then_show (say x) k = (out, Ok b) ->
  exists out', k tt = (out', Ok b) /\ out = x :: out'.
Proof.
  unfold then_show, say. destruct (k tt) as [out' r'] eqn:E.
  simpl. intros [= <- ->]. eauto.
Qed.

(** The cards never fail: every one of them is shown. *)
Lemma show_cards_all cards : show_cards cards = (cards_of cards, Ok tt).
Proof.
  induction cards as [|[[title poster_url] source] cards IH]; [reflexivity|].
  cbn [show_cards]. unfold then_show, say. rewrite IH. reflexivity.
Qed.

Section Page.

Context {World : Type}.
Variable http : World -> request -> option json * World.
Variable render : json -> string.
Variable str_lower : string -> string.
Variable str_title : string -> string.

(** X20.  When the search answers and finds nothing, no request has
    failed and no error box was written; the form handler then does not
    show the "Movie not found" entry: it reads [movie_info['title']]
    off the title-cased string, and ends with [TypeError] before it
    writes anything. *)
Theorem on_submit_no_results movie_input w response w1 results :
  http w (SearchMovie movie_input) = (Some response, w1) ->
  Py.subscript response "results" = Ok results ->
  Py.truthy results = false ->
  movie_input <> "" ->
  on_submit http render str_lower str_title true movie_input w
  = (([], Raise TypeError), w1).
Proof.
  intros Hs Hr Ht Hne.
  unfold on_submit, recommend, recommend_upto, fetch_movie_data_from_api.
  unfold bind, attempt, requests_get_json, lift. rewrite Hs, Hr, Ht.
  destruct (String.eqb_spec movie_input ""); [contradiction|]. reflexivity.
Qed.

(** X21.  When the form handler completes, the page shows the heading,
    the six lines of the expander and then a card for every
    recommendation that [recommend] returned: the slice
    [recommendations[:5]] drops none. *)
Theorem on_submit_shows_all movie_input w out w' :
  on_submit http render str_lower str_title true movie_input w
  = ((out, Ok tt), w') ->
  movie_input <> "" ->
  exists recs info title genres year cast director rating overview,
    recommend http render str_lower str_title movie_input w
    = (Ok (recs, info), w')
    /\ out = info_widgets title genres year cast director rating overview
             ++ cards_of recs.
Proof.
  unfold on_submit. intros H Hne.
  destruct (String.eqb_spec movie_input ""); [contradiction|]. simpl in H.
  destruct (recommend http render str_lower str_title movie_input w)
    as [[[recs info]|e] w1] eqn:Er;
    [|discriminate].
  injection H as H ->.
  assert (firstn 5 recs = recs) as Hall.
  { apply firstn_all2.
    apply recommend_upto_ok in Er as [Er|(added & -> & _ & L)].
    - injection Er as -> _. simpl. lia.
    - apply L. simpl. lia. }
  unfold show_results in H. rewrite Hall, show_cards_all in H.
  apply eval_then in H as (title & _ & H). apply say_then in H as (o1 & H & ->).
  apply eval_then in H as (genre & _ & H).
  apply eval_then in H as (genres & _ & H). apply say_then in H as (o2 & H & ->).
  apply eval_then in H as (year & _ & H). apply say_then in H as (o3 & H & ->).
  apply eval_then in H as (cast & _ & H).
  apply eval_then in H as (casts & _ & H). apply say_then in H as (o4 & H & ->).
  apply eval_then in H as (director & _ & H).
  apply eval_then in H as (directors & _ & H).
  apply say_then in H as (o5 & H & ->).
  apply eval_then in H as (rating & _ & H). apply say_then in H as (o6 & H & ->).
  apply eval_then in H as (overview & _ & H).
  apply say_then in H as (o7 & H & ->).
  injection H as <-.
  exists recs, info, (fmt render title), genres, (fmt render year), casts,
    directors, (fmt render rating), (fmt render overview).
  split; reflexivity.
Qed.

End Page.

(* ================================================================= *)
(** ** The further properties on the scenarios *)

Lemma fetch_movie_data_from_api_shape_witness :
  (snd Scenario.inception_result = JNull /\ Scenario.JInt 27205 = JNull)
  \/ exists title genre year cast director overview rating similar,
       snd Scenario.inception_result
       = JObj [("title", title); ("genre", JArr genre); ("year", year);
               ("cast", JArr cast); ("director", JArr director);
               ("overview", overview); ("rating", rating);
               ("similar", similar)]
       /\ (List.length cast <= 5)%nat.
Proof.
  apply (fetch_movie_data_from_api_shape Scenario.http_inception
           "inception" 0%nat (snd Scenario.inception_result)
           (Scenario.JInt 27205) 2%nat).
  reflexivity.
Defined.

Lemma movie_info_directors_witness :
  exists credits crew ws,
    Py.get (Scenario.inception Scenario.released) "credits" (JObj [])
    = Ok credits
    /\ Py.get credits "crew" (JArr []) = Ok crew
    /\ Py.iter crew = Ok ws
    /\ Py.subscript (snd Scenario.inception_result) "director"
       = Ok (JArr (directors_of ws)).
Proof.
  apply (movie_info_directors (Scenario.inception Scenario.released)
           (snd Scenario.inception_result)).
  reflexivity.
Defined.

Lemma movie_info_defaults_witness :
  Py.subscript Scenario.obscure_info "title"
  = Py.get Scenario.obscure "title" JNull
  /\ Py.subscript Scenario.obscure_info "year"
     = (release_date <- Py.get Scenario.obscure "release_date" (JStr "") ;;
        Py.slice 4 release_date)%res
  /\ Py.subscript Scenario.obscure_info "overview"
     = Py.get Scenario.obscure "overview" (JStr "No description available.")
  /\ Py.subscript Scenario.obscure_info "rating"
     = Py.get Scenario.obscure "vote_average" (JStr "N/A")
  /\ Py.subscript Scenario.obscure_info "similar"
     = (similar <- Py.get Scenario.obscure "similar" (JObj []) ;;
        Py.get similar "results" (JArr []))%res.
Proof.
  apply (movie_info_defaults Scenario.obscure Scenario.obscure_info).
  reflexivity.
Defined.

Lemma fetch_poster_url_shape_witness :
  "https://image.tmdb.org/t/p/w500/Avatar"
  = "https://via.placeholder.com/300x450?text=Error"
  \/ "https://image.tmdb.org/t/p/w500/Avatar"
     = "https://via.placeholder.com/300x450?text=No+Poster"
  \/ exists path,
       "https://image.tmdb.org/t/p/w500/Avatar"
       = ("https://image.tmdb.org/t/p/w500" ++ path)%string.
Proof.
  apply (fetch_poster_url_shape Scenario.http_inception Scenario.render
           (JStr "Avatar") 0%nat _ 1%nat).
  reflexivity.
Defined.

Lemma recommend_posters_witness :
  Scenario.inception_result = not_found Str.title "inception"
  \/ Forall (fun r => poster_shape (rec_poster r))
       (fst Scenario.inception_result).
Proof.
  apply (recommend_posters Scenario.http_inception Scenario.render
           Str.lower Str.title
           "inception" 0%nat _ _ 9%nat).
  reflexivity.
Defined.

Lemma recommend_late_titles_new_witness :
  late_titles_new (fst Scenario.inception_result).
Proof.
  apply (recommend_late_titles_new Scenario.http_inception Scenario.render
           Str.lower Str.title
           "inception" 0%nat _ (snd Scenario.inception_result) 9%nat).
  reflexivity.
Defined.

Lemma recommend_collection_titles_differ_witness :
  differs_from_resolved Str.lower (snd Scenario.saga_result)
    (JStr "Saga Returns").
Proof.
  apply (recommend_collection_titles_differ Scenario.http_saga
           Scenario.render Str.lower Str.title
               "saga" 0%nat (fst Scenario.saga_result)
           (snd Scenario.saga_result) 7%nat eq_refl
           (JStr "Saga Returns",
            "https://image.tmdb.org/t/p/w500/Saga Returns",
            from_collection)).
  - left. reflexivity.
  - reflexivity.
Defined.

Lemma best_match_is_a_result_witness :
  exists items,
    Py.iter (JArr [Scenario.hit 64956 (32 # 10) "/cameo.jpg";
                   Scenario.hit 27205 (805 # 10) "/inception.jpg"])
    = Ok items
    /\ In (Scenario.hit 27205 (805 # 10) "/inception.jpg") items.
Proof.
  apply (best_match_is_a_result
           (JArr [Scenario.hit 64956 (32 # 10) "/cameo.jpg";
                  Scenario.hit 27205 (805 # 10) "/inception.jpg"])).
  reflexivity.
Defined.

Lemma fetch_movie_collection_sound_witness :
  exists details w1 coll parts items item,
    Scenario.http_saga 0%nat (Movie (Scenario.JInt 1)) = (Some details, w1)
    /\ Scenario.http_saga w1 (Collection (Scenario.JInt 10))
       = (Some coll, 2%nat)
    /\ Py.get coll "parts" (JArr []) = Ok parts
    /\ Py.iter parts = Ok items
    /\ In item items
    /\ has_year item = Ok true
    /\ Py.subscript item "title" = Ok (JStr "Saga Returns").
Proof.
  apply (fetch_movie_collection_sound Scenario.http_saga (Scenario.JInt 1)
           0%nat [JStr "Saga"; JStr "Saga Returns"; JStr "Saga Returns"]
           (Scenario.JInt 10) 2%nat eq_refl (JStr "Saga Returns")).
  right. left. reflexivity.
Defined.

Lemma recommend_stage_order_witness :
  Scenario.inception_result = not_found Str.title "inception"
  \/ exists sequels similars fallbacks,
       fst Scenario.inception_result = sequels ++ similars ++ fallbacks
       /\ Forall (fun r => rec_source r = from_collection) sequels
       /\ Forall (fun r => rec_source r = from_similar) similars
       /\ Forall (fun r => rec_source r = from_fallback) fallbacks.
Proof.
  apply (recommend_stage_order Scenario.http_inception Scenario.render
           Str.lower Str.title
           "inception" 0%nat _ (snd Scenario.inception_result) 9%nat).
  reflexivity.
Defined.

Lemma recommend_without_results_entry_witness :
  recommend Scenario.http_refused Scenario.render Str.lower Str.title
      "inception" 0%nat
  = (Raise KeyError, 1%nat).
Proof.
  apply (recommend_without_results_entry Scenario.http_refused
           Scenario.render Str.lower Str.title "inception" 0%nat
           [("success", JBool false); ("status_code", Scenario.JInt 7);
            ("status_message", JStr "Invalid API key")] 1%nat);
    reflexivity.
Defined.

Lemma recommend_outcomes_witness :
  (fst Scenario.inception_result
   = [(JStr "Movie not found", poster_not_found, "")]
   /\ snd Scenario.inception_result = JStr (Str.title "inception"))
  \/ ((exists title genre year cast director overview rating similar,
          snd Scenario.inception_result
          = JObj [("title", title); ("genre", JArr genre);
                  ("year", year); ("cast", JArr cast);
                  ("director", JArr director); ("overview", overview);
                  ("rating", rating); ("similar", similar)])
      /\ Forall (fun r => rec_source r = from_collection
                          \/ rec_source r = from_similar
                          \/ rec_source r = from_fallback)
           (fst Scenario.inception_result)).
Proof.
  apply (recommend_outcomes Scenario.http_inception Scenario.render
           Str.lower Str.title
           "inception" 0%nat _ _ 9%nat).
  reflexivity.
Defined.

Lemma collect_genre_ids_named_witness :
  collect_genre_ids Scenario.render Str.lower Scenario.vocabulary
    (map JStr ["ACTION"; "Science fiction"; "Western"]) []
  = Ok (genre_ids_of Scenario.render Str.lower
          [Scenario.genre 28 "Action"; Scenario.genre 18 "Drama";
           Scenario.genre 878 "Science Fiction"]
          ["ACTION"; "Science fiction"; "Western"]).
Proof.
  apply (collect_genre_ids_named Scenario.render Str.lower Scenario.vocabulary
           [Scenario.genre 28 "Action"; Scenario.genre 18 "Drama";
            Scenario.genre 878 "Science Fiction"]
           ["ACTION"; "Science fiction"; "Western"]).
  - reflexivity.
  - repeat constructor; eexists; eexists; split; reflexivity.
Defined.

Example collect_genre_ids_ex :
  genre_ids_of Scenario.render Str.lower
    [Scenario.genre 28 "Action"; Scenario.genre 18 "Drama";
     Scenario.genre 878 "Science Fiction"]
    ["ACTION"; "Science fiction"; "Western"]
  = ["28"; "878"].
Proof. reflexivity. Qed.

Lemma stage2_unreadable_year_witness :
  stage2 Scenario.http_inception Scenario.render 5 [JStr "Action"] 2010%Z
    [Scenario.announced; Scenario.interstellar] ([], []) 0%nat
  = (Raise ValueError, 0%nat).
Proof.
  apply (stage2_unreadable_year Scenario.http_inception Scenario.render 5
           [JStr "Action"] 2010%Z Scenario.announced [Scenario.interstellar]
           ([], []) 0%nat (JStr "Coming Soon") "TBA").
  - reflexivity.
  - reflexivity.
  - discriminate.
  - split; reflexivity.
  - reflexivity.
Defined.

Lemma stage2_failed_lookup_skipped_witness :
  stage2 Scenario.http_search_only Scenario.render 5 [JStr "Action"] 2010%Z
    [Scenario.interstellar; Scenario.cinderella] ([], []) 0%nat
  = stage2 Scenario.http_search_only Scenario.render 5 [JStr "Action"]
      2010%Z [Scenario.cinderella] ([], []) 1%nat.
Proof.
  apply (stage2_failed_lookup_skipped Scenario.http_search_only
           Scenario.render 5 [JStr "Action"] 2010%Z Scenario.interstellar
           [Scenario.cinderella] ([], []) 0%nat (JStr "Interstellar")
           (JStr "2014-11-05") (JStr "2014") 2014%Z (Scenario.JInt 157336)
           RequestError 1%nat);
    try reflexivity.
  - discriminate.
  - discriminate.
Defined.

Lemma recommend_nothing_to_offer_witness :
  recommend Scenario.http_obscure Scenario.render Str.lower Str.title
      "the lost reel" 0%nat
  = (Ok ([], Scenario.obscure_info), 4%nat).
Proof.
  apply (recommend_nothing_to_offer Scenario.http_obscure Scenario.render
           Str.lower Str.title
           "the lost reel" 0%nat Scenario.obscure_info (Scenario.JInt 404)
           2%nat [JStr "Home Movie"] 1931%Z JNull 3%nat Scenario.vocabulary
           4%nat);
    reflexivity.
Defined.

Lemma on_submit_no_results_witness :
  on_submit Scenario.http_nothing Scenario.render Str.lower Str.title true
    "the lost reel" 0%nat
  = (([], Raise TypeError), 1%nat).
Proof.
  apply (on_submit_no_results Scenario.http_nothing Scenario.render
           Str.lower Str.title "the lost reel" 0%nat
           (JObj [("results", JArr [])]) 1%nat (JArr []));
    try reflexivity.
  discriminate.
Defined.

Lemma on_submit_shows_all_witness :
  exists recs info title genres year cast director rating overview,
    recommend Scenario.http_saga Scenario.render Str.lower Str.title
        "saga" 0%nat
    = (Ok (recs, info), 7%nat)
    /\ Scenario.saga_page
       = info_widgets title genres year cast director rating overview
         ++ cards_of recs.
Proof.
  apply (on_submit_shows_all Scenario.http_saga Scenario.render
           Str.lower Str.title "saga"
           0%nat Scenario.saga_page 7%nat).
  - reflexivity.
  - discriminate.
Defined.

(* ================================================================= *)
(** ** The limit of five *)






Section Five.

Context {World : Type}.
Variable http : World -> request -> option json * World.
Variable render : json -> string.
Variable str_lower : string -> string.
Variable str_title : string -> string.









End Five.

